(** * MesaGrid: the connection store, the command surface and the dialogs

    A shallow embedding of the TypeScript front end of MesaGrid
    ([src/stores/connection-store.ts], [src/lib/api.ts], the connection
    dialog and the query editor) together with the parts of the Rust core
    that the front end talks to.

    JavaScript objects with a fixed shape are records, arrays are lists,
    [string | null] and optional properties are [option], and the values
    the code draws from the environment ([crypto.randomUUID()],
    [new Date().toISOString()], [parseInt]) are explicit arguments. *)

From Stdlib Require Import Ascii String DecimalString DecimalNat.
From stdpp Require Import base strings list gmap.



(** ** JavaScript values carried by the store *)

(** A [number] as the front end produces it: an integer or [NaN]
    ([parseInt] of a string without digits). *)
Inductive number : Type :=
  | NaN
  | Int (z : Z).

#[global] Instance number_eq_dec : EqDecision number.
Proof. solve_decision. Defined.

(** A cell of a result row ([unknown] in the source). *)
Inductive JsValue : Type :=
  | JsNull
  | JsUndefined
  | JsBoolean (b : bool)
  | JsNumber (n : number)
  | JsString (s : string)
  | JsObject (json : string).

Inductive DatabaseType : Type := postgres | mysql.

#[global] Instance DatabaseType_eq_dec : EqDecision DatabaseType.
Proof. solve_decision. Defined.

Inductive Theme : Type := light | dark | system.

Inductive TableKind : Type := table | view.

(** ** Records of [connection-store.ts] *)

Module Connection.
(** [interface Connection]: no field holds a password. *)
Record t : Type := mk {
  id : string;
  name : string;
  type : DatabaseType;
  host : string;
  port : number;
  database : string;
  username : string;
  isConnected : bool;
  lastConnected : option string
}.

(** [Partial<Connection>]: for every property, absent or a new value. *)
Record partial : Type := mkPartial {
  id' : option string;
  name' : option string;
  type' : option DatabaseType;
  host' : option string;
  port' : option number;
  database' : option string;
  username' : option string;
  isConnected' : option bool;
  lastConnected' : option (option string)
}.

Definition noUpdates : partial :=
  mkPartial None None None None None None None None None.

(** [{ ...c, ...updates }] *)
Definition spread (c : t) (u : partial) : t :=
  {| id := default (id c) (id' u);
     name := default (name c) (name' u);
     type := default (type c) (type' u);
     host := default (host c) (host' u);
     port := default (port c) (port' u);
     database := default (database c) (database' u);
     username := default (username c) (username' u);
     isConnected := default (isConnected c) (isConnected' u);
     lastConnected := default (lastConnected c) (lastConnected' u) |}.

(** [{ ...first, ...second }] on two partial updates. *)
Definition merge (first second : partial) : partial :=
  {| id' := match id' second with Some v => Some v | None => id' first end;
     name' :=
       match name' second with Some v => Some v | None => name' first end;
     type' :=
       match type' second with Some v => Some v | None => type' first end;
     host' :=
       match host' second with Some v => Some v | None => host' first end;
     port' :=
       match port' second with Some v => Some v | None => port' first end;
     database' :=
       match database' second with
       | Some v => Some v
       | None => database' first
       end;
     username' :=
       match username' second with
       | Some v => Some v
       | None => username' first
       end;
     isConnected' :=
       match isConnected' second with
       | Some v => Some v
       | None => isConnected' first
       end;
     lastConnected' :=
       match lastConnected' second with
       | Some v => Some v
       | None => lastConnected' first
       end |}.
End Connection.

Module ColumnInfo.
Record t : Type := mk {
  name : string;
  dataType : string;
  nullable : bool
}.
End ColumnInfo.

Module QueryResult.
Record t : Type := mk {
  columns : list ColumnInfo.t;
  rows : list (gmap string JsValue);
  rowCount : number;
  executionTimeMs : number
}.
End QueryResult.

Module QueryTab.
Record t : Type := mk {
  id : string;
  connectionId : string;
  title : string;
  sql : string;
  results : option QueryResult.t;
  isRunning : bool
}.

(** [Partial<QueryTab>] *)
Record partial : Type := mkPartial {
  id' : option string;
  connectionId' : option string;
  title' : option string;
  sql' : option string;
  results' : option (option QueryResult.t);
  isRunning' : option bool
}.

Definition noUpdates : partial := mkPartial None None None None None None.

(** [{ ...t, ...updates }] *)
Definition spread (t0 : t) (u : partial) : t :=
  {| id := default (id t0) (id' u);
     connectionId := default (connectionId t0) (connectionId' u);
     title := default (title t0) (title' u);
     sql := default (sql t0) (sql' u);
     results := default (results t0) (results' u);
     isRunning := default (isRunning t0) (isRunning' u) |}.
End QueryTab.

Module TableInfo.
Record t : Type := mk {
  name : string;
  schema : string;
  type : TableKind;
  rowCount : option number
}.
End TableInfo.

(** ** The store *)

Module Store.

(** The data fields of [interface ConnectionStore]. *)
Record ConnectionStore : Type := mk {
  connections : list Connection.t;
  activeConnectionId : option string;
  queryTabs : list QueryTab.t;
  activeTabId : option string;
  tables : list TableInfo.t;
  sidebarWidth : number;
  theme : Theme
}.

Definition initial : ConnectionStore :=
  {| connections := [];
     activeConnectionId := None;
     queryTabs := [];
     activeTabId := None;
     tables := [];
     sidebarWidth := Int 260;
     theme := dark |}.

(** Zustand's [set(partial)] merges the returned properties into the
    state; the setters below change one property each. *)
Definition set_connections (v : list Connection.t) (s : ConnectionStore) :=
  mk v (activeConnectionId s) (queryTabs s) (activeTabId s) (tables s)
     (sidebarWidth s) (theme s).
Definition set_activeConnectionId (v : option string) (s : ConnectionStore) :=
  mk (connections s) v (queryTabs s) (activeTabId s) (tables s)
     (sidebarWidth s) (theme s).
Definition set_queryTabs (v : list QueryTab.t) (s : ConnectionStore) :=
  mk (connections s) (activeConnectionId s) v (activeTabId s) (tables s)
     (sidebarWidth s) (theme s).
Definition set_activeTabId (v : option string) (s : ConnectionStore) :=
  mk (connections s) (activeConnectionId s) (queryTabs s) v (tables s)
     (sidebarWidth s) (theme s).
Definition set_tables (v : list TableInfo.t) (s : ConnectionStore) :=
  mk (connections s) (activeConnectionId s) (queryTabs s) (activeTabId s) v
     (sidebarWidth s) (theme s).
Definition set_sidebarWidth (v : number) (s : ConnectionStore) :=
  mk (connections s) (activeConnectionId s) (queryTabs s) (activeTabId s)
     (tables s) v (theme s).
Definition set_theme (v : Theme) (s : ConnectionStore) :=
  mk (connections s) (activeConnectionId s) (queryTabs s) (activeTabId s)
     (tables s) (sidebarWidth s) v.

(** *** Connection actions *)

Definition addConnection (connection : Connection.t) (s : ConnectionStore)
  : ConnectionStore :=
  set_connections (connections s ++ [connection]) s.

Definition updateConnection (id : string) (updates : Connection.partial)
    (s : ConnectionStore) : ConnectionStore :=
  set_connections
    ((λ c, if decide (Connection.id c = id)
           then Connection.spread c updates else c) <$> connections s) s.

Definition removeConnection (id : string) (s : ConnectionStore)
  : ConnectionStore :=
  set_queryTabs (filter (λ t, QueryTab.connectionId t ≠ id) (queryTabs s))
    (set_activeConnectionId
       (if decide (activeConnectionId s = Some id) then None
        else activeConnectionId s)
       (set_connections
          (filter (λ c, Connection.id c ≠ id) (connections s)) s)).

Definition setActiveConnection (id : option string) (s : ConnectionStore)
  : ConnectionStore :=
  set_tables [] (set_activeConnectionId id s).

(** [now] is the value of [new Date().toISOString()]. *)
Definition setConnectionStatus (now : string) (id : string)
    (isConnected : bool) (s : ConnectionStore) : ConnectionStore :=
  set_connections
    ((λ c, if decide (Connection.id c = id)
           then Connection.spread c
                  {| Connection.id' := None; Connection.name' := None;
                     Connection.type' := None; Connection.host' := None;
                     Connection.port' := None;
                     Connection.database' := None;
                     Connection.username' := None;
                     Connection.isConnected' := Some isConnected;
                     Connection.lastConnected' :=
                       Some (if isConnected then Some now
                             else Connection.lastConnected c) |}
           else c) <$> connections s) s.

(** *** Tab actions *)

(** Decimal rendering of a count inside a template literal. *)
Definition decimal (n : nat) : string :=
  NilZero.string_of_uint (Nat.to_uint n).

(** [newTabId] is the value of [generateId()]. *)
Definition addQueryTab (newTabId : string) (connectionId : string)
    (s : ConnectionStore) : ConnectionStore :=
  let tabCount :=
    length (filter (λ t, QueryTab.connectionId t = connectionId)
                   (queryTabs s)) in
  set_activeTabId (Some newTabId)
    (set_queryTabs
       (queryTabs s ++
          [ {| QueryTab.id := newTabId;
               QueryTab.connectionId := connectionId;
               QueryTab.title := "Query " +:+ decimal (tabCount + 1);
               QueryTab.sql := "";
               QueryTab.results := None;
               QueryTab.isRunning := false |} ]) s).

Definition updateQueryTab (id : string) (updates : QueryTab.partial)
    (s : ConnectionStore) : ConnectionStore :=
  set_queryTabs
    ((λ t, if decide (QueryTab.id t = id)
           then QueryTab.spread t updates else t) <$> queryTabs s) s.

Definition removeQueryTab (id : string) (s : ConnectionStore)
  : ConnectionStore :=
  let tabs := filter (λ t, QueryTab.id t ≠ id) (queryTabs s) in
  let wasActive := bool_decide (activeTabId s = Some id) in
  set_activeTabId
    (if wasActive then QueryTab.id <$> last tabs else activeTabId s)
    (set_queryTabs tabs s).

Definition setActiveTab (id : option string) (s : ConnectionStore) :=
  set_activeTabId id s.

(** *** Table and UI actions *)

Definition setTables (ts : list TableInfo.t) (s : ConnectionStore) :=
  set_tables ts s.
Definition setSidebarWidth (width : number) (s : ConnectionStore) :=
  set_sidebarWidth width s.
Definition setTheme (th : Theme) (s : ConnectionStore) :=
  set_theme th s.

(** *** Persistence *)

(** What [partialize] hands to the [persist] middleware. *)
Record Persisted : Type := mkPersisted {
  p_connections : list Connection.t;
  p_sidebarWidth : number;
  p_theme : Theme
}.

(** [{ ...c, isConnected: false }] *)
Definition offline (c : Connection.t) : Connection.t :=
  Connection.spread c
    {| Connection.id' := None; Connection.name' := None;
       Connection.type' := None; Connection.host' := None;
       Connection.port' := None; Connection.database' := None;
       Connection.username' := None;
       Connection.isConnected' := Some false;
       Connection.lastConnected' := None |}.

Definition partialize (s : ConnectionStore) : Persisted :=
  {| p_connections := offline <$> connections s;
     p_sidebarWidth := sidebarWidth s;
     p_theme := theme s |}.

(** *** Reachable states *)

(** One call of a store action, with the values it draws. *)
Inductive Action : Type :=
  | AddConnection (connection : Connection.t)
  | UpdateConnection (id : string) (updates : Connection.partial)
  | RemoveConnection (id : string)
  | SetActiveConnection (id : option string)
  | SetConnectionStatus (now : string) (id : string) (isConnected : bool)
  | AddQueryTab (newTabId : string) (connectionId : string)
  | UpdateQueryTab (id : string) (updates : QueryTab.partial)
  | RemoveQueryTab (id : string)
  | SetActiveTab (id : option string)
  | SetTables (ts : list TableInfo.t)
  | SetSidebarWidth (width : number)
  | SetTheme (th : Theme).

Definition step (a : Action) (s : ConnectionStore) : ConnectionStore :=
  match a with
  | AddConnection c => addConnection c s
  | UpdateConnection id u => updateConnection id u s
  | RemoveConnection id => removeConnection id s
  | SetActiveConnection id => setActiveConnection id s
  | SetConnectionStatus now id b => setConnectionStatus now id b s
  | AddQueryTab newTabId cid => addQueryTab newTabId cid s
  | UpdateQueryTab id u => updateQueryTab id u s
  | RemoveQueryTab id => removeQueryTab id s
  | SetActiveTab id => setActiveTab id s
  | SetTables ts => setTables ts s
  | SetSidebarWidth w => setSidebarWidth w s
  | SetTheme th => setTheme th s
  end.

(** The states the store can be in: the initial one, and whatever a
    sequence of actions makes of it. *)
Inductive reachable : ConnectionStore → Prop :=
  | reachable_initial : reachable initial
  | reachable_step a s : reachable s → reachable (step a s).

Definition run (acts : list Action) (s : ConnectionStore) : ConnectionStore :=
  foldl (λ s a, step a s) s acts.

(** *** Identifiers in use *)

Definition connectionIds (s : ConnectionStore) : list string :=
  Connection.id <$> connections s.

Definition tabIds (s : ConnectionStore) : list string :=
  QueryTab.id <$> queryTabs s.

(** [activeTabId] is null or the id of a tab that is there. *)
Definition activeTabValid (s : ConnectionStore) : Prop :=
  match activeTabId s with
  | Some a => a ∈ tabIds s
  | None => True
  end.

(** The action is called the way the components call it: a connection
    or a tab is added under an id that is not in use
    ([crypto.randomUUID()], the id the backend returns), and an update
    does not overwrite an id. *)
Definition keepsIdsDistinct (a : Action) (s : ConnectionStore) : Prop :=
  match a with
  | AddConnection c => Connection.id c ∉ connectionIds s
  | UpdateConnection _ u => Connection.id' u = None
  | AddQueryTab newTabId _ => newTabId ∉ tabIds s
  | UpdateQueryTab _ u => QueryTab.id' u = None
  | _ => True
  end.

(** The states reached by such calls alone. *)
Inductive reachableDistinct : ConnectionStore → Prop :=
  | reachableDistinct_initial : reachableDistinct initial
  | reachableDistinct_step a s :
      reachableDistinct s → keepsIdsDistinct a s →
      reachableDistinct (step a s).

(** The actions that write none of the properties [partialize] reads,
    or write them without a visible effect (a disconnect). *)
Definition leavesPersisted (a : Action) : bool :=
  match a with
  | AddConnection _ | UpdateConnection _ _ | RemoveConnection _
  | SetSidebarWidth _ | SetTheme _ => false
  | SetConnectionStatus _ _ isConnected => negb isConnected
  | SetActiveConnection _ | AddQueryTab _ _ | UpdateQueryTab _ _
  | RemoveQueryTab _ | SetActiveTab _ | SetTables _ => true
  end.

End Store.


(** ** Errors of the core *)

Module Errors.
(** Modelled from the spec: the error taxonomy of the Rust core, which is
    not among the front-end sources (section 7, and the kinds of
    destructive statement of section 4.4). *)
Inductive DestructiveKind : Type :=
  | Drop
  | Truncate
  | DeleteWithoutWhere
  | UpdateWithoutWhere
  | AlterDestructive.

(** Modelled from the spec: the failures of the Credential Vault. *)
Inductive VaultError : Type := NotFound | AccessDenied | BackendUnavailable.

(** Modelled from the spec: the failures of the Connection Pool Manager. *)
Inductive ConnectionError : Type :=
  | AuthFailed
  | Unreachable
  | ConnectTimeout
  | Exhausted.

(** Modelled from the spec: the failures of the Query Executor. *)
Inductive QueryError : Type :=
  | Rejected (message : string)
  | Cancelled
  | ConfirmationRequired (kind : DestructiveKind)
  | QueryTimeout.

(** Modelled from the spec: the failures of the Mutation Engine. *)
Inductive MutationError : Type :=
  | NoPrimaryKey
  | ConcurrentModification
  | ConstraintViolation.

(** Modelled from the spec: a structured error as it crosses the command
    boundary (kind and message, never a raw exception). *)
Inductive CoreError : Type :=
  | OfVault (e : VaultError)
  | OfConnection (e : ConnectionError)
  | OfQuery (e : QueryError)
  | OfMutation (e : MutationError)
  | Validation (message : string).

(** Modelled from the spec: the text a failed connection test reports. *)
Definition connectionErrorName (e : ConnectionError) : string :=
  match e with
  | AuthFailed => "AuthFailed"
  | Unreachable => "Unreachable"
  | ConnectTimeout => "Timeout"
  | Exhausted => "Exhausted"
  end.
End Errors.

(** ** The command surface, [src/lib/api.ts] *)

Module CreateConnectionParams.
Record t : Type := mk {
  name : string;
  type : DatabaseType;
  host : string;
  port : number;
  database : string;
  username : string;
  password : string
}.
End CreateConnectionParams.

Module TestConnectionParams.
Record t : Type := mk {
  type : DatabaseType;
  host : string;
  port : number;
  database : string;
  username : string;
  password : string
}.
End TestConnectionParams.

Module TestConnectionResult.
(** [{ success: boolean; error?: string }] *)
Record t : Type := mk {
  success : bool;
  error : option string
}.
End TestConnectionResult.

Module ExecuteQueryParams.
Record t : Type := mk {
  connectionId : string;
  sql : string;
  limit : option number;
  offset : option number
}.
End ExecuteQueryParams.

Module GetTableDataParams.
Record t : Type := mk {
  connectionId : string;
  tableName : string;
  schema : option string;
  limit : option number;
  offset : option number
}.
End GetTableDataParams.

Module TableDataResult.
Record t : Type := mk {
  columns : list ColumnInfo.t;
  rows : list (gmap string JsValue);
  totalCount : number;
  hasMore : bool
}.
End TableDataResult.

Module Api.

(** What a rejected promise carries: an [Error] instance with its
    message, or any other value (the core rejects with structured
    errors). *)
Inductive Thrown : Type :=
  | ErrorInstance (message : string)
  | Structured (e : Errors.CoreError).

(** How a promise settles. *)
Inductive Settled (A : Type) : Type :=
  | Resolved (a : A)
  | Rejected (e : Thrown).
Arguments Resolved {A} a.
Arguments Rejected {A} e.

(** The commands of the core that the store, the dialog and the editor
    depend on: the name given to [invoke], its payload and the type of the
    value the promise resolves to. *)
Inductive Command : Type → Type :=
  | create_connection (params : CreateConnectionParams.t) : Command string
  | test_connection (params : TestConnectionParams.t)
      : Command TestConnectionResult.t
  | delete_connection (connectionId : string) : Command unit
  | execute_query (params : ExecuteQueryParams.t) : Command QueryResult.t
  | get_table_data (params : GetTableDataParams.t)
      : Command TableDataResult.t.

(** Whatever stands behind [invoke]: a state and its answer to a command. *)
Class Backend (B : Type) : Type :=
  invoke : ∀ R : Type, Command R → B → Settled R * B.
Arguments invoke {B _ R} c b.

Section Commands.
Context {B : Type} `{!Backend B}.

Definition createConnection (params : CreateConnectionParams.t)
  : B → Settled string * B :=
  invoke (create_connection params).

Definition testConnection (params : TestConnectionParams.t)
  : B → Settled TestConnectionResult.t * B :=
  invoke (test_connection params).

Definition deleteConnection (connectionId : string)
  : B → Settled unit * B :=
  invoke (delete_connection connectionId).

Definition executeQuery (params : ExecuteQueryParams.t)
  : B → Settled QueryResult.t * B :=
  invoke (execute_query params).

Definition getTableData (params : GetTableDataParams.t)
  : B → Settled TableDataResult.t * B :=
  invoke (get_table_data params).

(** A caller that holds a confirmation has no property of
    [ExecuteQueryParams] to put it in. *)
Definition executeQuery_confirmed (confirmed : bool)
    (params : ExecuteQueryParams.t) : B → Settled QueryResult.t * B :=
  executeQuery params.

End Commands.

(** A command together with its result type, for logs. *)
Definition AnyCommand : Type := sigT Command.

Definition sent {R : Type} (c : Command R) : AnyCommand := existT R c.

(** A backend that also records every command it is sent, in order. *)
#[global] Instance recording (B : Type) `{!Backend B}
  : Backend (B * list AnyCommand) :=
  λ R c st,
    let '(r, b') := invoke c (fst st) in
    (r, (b', snd st ++ [sent c])).

(** Where a table page starts, in the words of the command table:
    an offset or a cursor. *)
Inductive Position : Type :=
  | AtOffset (n : option number)
  | AtCursor (cursor : string).

(** The position a [GetTableDataParams] can express. *)
Definition position (params : GetTableDataParams.t) : Position :=
  AtOffset (GetTableDataParams.offset params).

End Api.


(** ** The connection dialog *)

Module FormData.
Record t : Type := mk {
  name : string;
  type : DatabaseType;
  host : string;
  port : string;
  database : string;
  username : string;
  password : string
}.
End FormData.

Module Dialog.

(** The banner under the form: [{ success, message }]. *)
Record TestOutcome : Type := mkOutcome {
  success : bool;
  message : string
}.

(** The props and the React state of [ConnectionDialog]. [open] is the
    parent's flag that [onOpenChange] sets. *)
Record State : Type := mkState {
  editConnection : option Connection.t;
  open : bool;
  formData : FormData.t;
  testing : bool;
  testResult : option TestOutcome;
  saving : bool
}.

Definition defaultFormData : FormData.t :=
  {| FormData.name := "";
     FormData.type := postgres;
     FormData.host := "localhost";
     FormData.port := "5432";
     FormData.database := "";
     FormData.username := "";
     FormData.password := "" |}.

Definition set_open (v : bool) (d : State) : State :=
  mkState (editConnection d) v (formData d) (testing d) (testResult d)
          (saving d).
Definition set_formData (v : FormData.t) (d : State) : State :=
  mkState (editConnection d) (open d) v (testing d) (testResult d) (saving d).
Definition set_testing (v : bool) (d : State) : State :=
  mkState (editConnection d) (open d) (formData d) v (testResult d) (saving d).
Definition set_testResult (v : option TestOutcome) (d : State) : State :=
  mkState (editConnection d) (open d) (formData d) (testing d) v (saving d).
Definition set_saving (v : bool) (d : State) : State :=
  mkState (editConnection d) (open d) (formData d) (testing d) (testResult d) v.

(** The store, the dialog and the backend the dialog's handlers act on. *)
Record World (B : Type) : Type := mkWorld {
  store : Store.ConnectionStore;
  dialog : State;
  backend : B
}.
Arguments mkWorld {B} store dialog backend.
Arguments store {B} w.
Arguments dialog {B} w.
Arguments backend {B} w.

(** [err instanceof Error ? err.message : fallback] *)
Definition messageOf (err : Api.Thrown) (fallback : string) : string :=
  match err with
  | Api.ErrorInstance m => m
  | Api.Structured _ => fallback
  end.

(** [value || fallback] on an optional string: the empty string and
    [undefined] are both falsy. *)
Definition orElse (value : option string) (fallback : string) : string :=
  match value with
  | Some v => if decide (v = "") then fallback else v
  | None => fallback
  end.

Section Handlers.
Context {B : Type} `{!Api.Backend B}.
(** [parseInt(s, 10)] *)
Variable parseInt10 : string → number.

Definition handleTestConnection (w : World B) : World B :=
  let f := formData (dialog w) in
  let d1 := set_testResult None (set_testing true (dialog w)) in
  let '(settled, b1) :=
    Api.testConnection
      {| TestConnectionParams.type := FormData.type f;
         TestConnectionParams.host := FormData.host f;
         TestConnectionParams.port := parseInt10 (FormData.port f);
         TestConnectionParams.database := FormData.database f;
         TestConnectionParams.username := FormData.username f;
         TestConnectionParams.password := FormData.password f |}
      (backend w) in
  let d2 :=
    match settled with
    | Api.Resolved result =>
        set_testResult
          (Some {| success := TestConnectionResult.success result;
                   message :=
                     if TestConnectionResult.success result
                     then "Connection successful!"
                     else orElse (TestConnectionResult.error result)
                                 "Connection failed" |}) d1
    | Api.Rejected err =>
        set_testResult
          (Some {| success := false;
                   message := messageOf err "Connection test failed" |}) d1
    end in
  mkWorld (store w) (set_testing false d2) b1.

(** [{ ...formData, port: parseInt(formData.port, 10) }] *)
Definition createParams (f : FormData.t) : CreateConnectionParams.t :=
  {| CreateConnectionParams.name := FormData.name f;
     CreateConnectionParams.type := FormData.type f;
     CreateConnectionParams.host := FormData.host f;
     CreateConnectionParams.port := parseInt10 (FormData.port f);
     CreateConnectionParams.database := FormData.database f;
     CreateConnectionParams.username := FormData.username f;
     CreateConnectionParams.password := FormData.password f |}.

(** The tail of the [try] block, reached when nothing was thrown. *)
Definition closeDialog (d : State) : State :=
  set_testResult None (set_formData defaultFormData (set_open false d)).

Definition saveFailed (err : Api.Thrown) (d : State) : State :=
  set_testResult
    (Some {| success := false;
             message := messageOf err "Failed to save connection" |}) d.

Definition handleSave (w : World B) : World B :=
  let f := formData (dialog w) in
  let d1 := set_saving true (dialog w) in
  let '(s2, d2, b2) :=
    match editConnection (dialog w) with
    | Some editConnection =>
        (* Update existing connection *)
        let s1 :=
          Store.updateConnection (Connection.id editConnection)
            {| Connection.id' := None;
               Connection.name' := Some (FormData.name f);
               Connection.type' := Some (FormData.type f);
               Connection.host' := Some (FormData.host f);
               Connection.port' := Some (parseInt10 (FormData.port f));
               Connection.database' := Some (FormData.database f);
               Connection.username' := Some (FormData.username f);
               Connection.isConnected' := None;
               Connection.lastConnected' := None |}
            (store w) in
        (* If password changed, update in keychain *)
        if decide (FormData.password f = "") then
          (s1, closeDialog d1, backend w)
        else
          match Api.createConnection (createParams f) (backend w) with
          | (Api.Resolved _, b1) => (s1, closeDialog d1, b1)
          | (Api.Rejected err, b1) => (s1, saveFailed err d1, b1)
          end
    | None =>
        (* Create new connection *)
        match Api.createConnection (createParams f) (backend w) with
        | (Api.Resolved connectionId, b1) =>
            (Store.addConnection
               {| Connection.id := connectionId;
                  Connection.name := FormData.name f;
                  Connection.type := FormData.type f;
                  Connection.host := FormData.host f;
                  Connection.port := parseInt10 (FormData.port f);
                  Connection.database := FormData.database f;
                  Connection.username := FormData.username f;
                  Connection.isConnected := false;
                  Connection.lastConnected := None |}
               (store w),
             closeDialog d1, b1)
        | (Api.Rejected err, b1) => (store w, saveFailed err d1, b1)
        end
    end in
  mkWorld s2 (set_saving false d2) b2.

End Handlers.

(** [useState] initialiser of the form: an edited connection's fields,
    with an empty password. [portText] is [String(editConnection.port)]. *)
Definition initialFormData (editConnection : option Connection.t)
    (portText : string) : FormData.t :=
  match editConnection with
  | Some c =>
      {| FormData.name := Connection.name c;
         FormData.type := Connection.type c;
         FormData.host := Connection.host c;
         FormData.port := portText;
         FormData.database := Connection.database c;
         FormData.username := Connection.username c;
         FormData.password := "" |}
  | None => defaultFormData
  end.

End Dialog.

(** ** The query editor *)

Module Editor.

(** The local React state of [QueryEditor] and what the Monaco model
    holds ([None] while the editor is not mounted). *)
Record State : Type := mkState {
  isRunning : bool;
  editorValue : option string
}.

Record World (B : Type) : Type := mkWorld {
  store : Store.ConnectionStore;
  editor : State;
  backend : B
}.
Arguments mkWorld {B} store editor backend.
Arguments store {B} w.
Arguments editor {B} w.
Arguments backend {B} w.

Definition activeTab (s : Store.ConnectionStore) : option QueryTab.t :=
  snd <$> list_find (λ t, Store.activeTabId s = Some (QueryTab.id t))
                    (Store.queryTabs s).

Definition activeConnection (s : Store.ConnectionStore)
  : option Connection.t :=
  snd <$> list_find (λ c, Store.activeConnectionId s = Some (Connection.id c))
                    (Store.connections s).

Definition emptyResult : QueryResult.t :=
  {| QueryResult.columns := [];
     QueryResult.rows := [];
     QueryResult.rowCount := Int 0;
     QueryResult.executionTimeMs := Int 0 |}.

Definition running (b : bool) (r : option (option QueryResult.t))
  : QueryTab.partial :=
  {| QueryTab.id' := None; QueryTab.connectionId' := None;
     QueryTab.title' := None; QueryTab.sql' := None;
     QueryTab.results' := r; QueryTab.isRunning' := Some b |}.

Section Handlers.
Context {B : Type} `{!Api.Backend B}.
(** [String.prototype.trim] *)
Variable trim : string → string.

(** The request of the run button. *)
Definition runRequest (connectionId sql : string) : ExecuteQueryParams.t :=
  {| ExecuteQueryParams.connectionId := connectionId;
     ExecuteQueryParams.sql := sql;
     ExecuteQueryParams.limit := Some (Int 100);
     ExecuteQueryParams.offset := Some (Int 0) |}.

Definition handleRunQuery (w : World B) : World B :=
  match activeTab (store w), activeConnection (store w),
        isRunning (editor w) with
  | Some tab, Some conn, false =>
      let sql := Dialog.orElse (editorValue (editor w)) (QueryTab.sql tab) in
      if decide (trim sql = "") then w
      else
        let s1 :=
          Store.updateQueryTab (QueryTab.id tab) (running true None)
                               (store w) in
        let '(settled, b1) :=
          Api.executeQuery (runRequest (Connection.id conn) sql)
                           (backend w) in
        let s2 :=
          match settled with
          | Api.Resolved result =>
              Store.updateQueryTab (QueryTab.id tab)
                (running false (Some (Some result))) s1
          | Api.Rejected _ =>
              Store.updateQueryTab (QueryTab.id tab)
                (running false (Some (Some emptyResult))) s1
          end in
        mkWorld s2 (mkState false (editorValue (editor w))) b1
  | _, _, _ => w
  end.

End Handlers.

(** The tabs shown in the tab bar: those of the active connection. *)
Definition connectionTabs (s : Store.ConnectionStore) : list QueryTab.t :=
  filter (λ t, Store.activeConnectionId s = Some (QueryTab.connectionId t))
         (Store.queryTabs s).

(** [value] is [None] when Monaco reports [undefined]. *)
Definition handleSqlChange (value : option string)
    (s : Store.ConnectionStore) : Store.ConnectionStore :=
  match activeTab s, value with
  | Some tab, Some v =>
      Store.updateQueryTab (QueryTab.id tab)
        (QueryTab.mkPartial None None None (Some v) None None) s
  | _, _ => s
  end.

(** [if (activeConnectionId)]: null and the empty string are falsy. *)
Definition handleNewTab (newTabId : string) (s : Store.ConnectionStore)
  : Store.ConnectionStore :=
  match Store.activeConnectionId s with
  | Some connectionId =>
      if decide (connectionId = "") then s
      else Store.addQueryTab newTabId connectionId s
  | None => s
  end.

Definition handleCloseTab (tabId : string) (s : Store.ConnectionStore)
  : Store.ConnectionStore :=
  Store.removeQueryTab tabId s.

End Editor.


(** ** The sidebar *)

Module Sidebar.

(** The store and the local set of expanded connections. *)
Record World : Type := mkWorld {
  store : Store.ConnectionStore;
  expandedConnections : gset string
}.

Definition toggleConnection (connectionId : string) (w : World) : World :=
  if decide (connectionId ∈ expandedConnections w) then
    mkWorld (store w) (expandedConnections w ∖ {[connectionId]})
  else
    mkWorld (Store.setActiveConnection (Some connectionId) (store w))
            ({[connectionId]} ∪ expandedConnections w).

(** [setTheme(theme === "dark" ? "light" : "dark")] *)
Definition toggleTheme (s : Store.ConnectionStore) : Store.ConnectionStore :=
  Store.setTheme (match Store.theme s with
                  | dark => light
                  | light | system => dark
                  end) s.

End Sidebar.


(** ** The Safety Guard of the core *)

Module SafetyGuard.

(** Modelled from the spec: the verdict of the Safety Guard. *)
Inductive Classification : Type :=
  | Safe
  | Destructive (kind : Errors.DestructiveKind).

(** Modelled from the spec: white space, for the lexical scan. *)
Definition isSpace (a : ascii) : bool :=
  let n := nat_of_ascii a in
  bool_decide (n = 32 ∨ (9 ≤ n ∧ n ≤ 13)).

(** Modelled from the spec: the letters a keyword is made of. *)
Definition isLetter (a : ascii) : bool :=
  let n := nat_of_ascii a in
  bool_decide ((65 ≤ n ∧ n ≤ 90) ∨ (97 ≤ n ∧ n ≤ 122)).

(** Modelled from the spec: the characters of a word of the statement. *)
Definition isWordChar (a : ascii) : bool :=
  let n := nat_of_ascii a in
  isLetter a || bool_decide ((48 ≤ n ∧ n ≤ 57) ∨ n = 95).

(** Modelled from the spec: keywords are compared case-insensitively. *)
Definition upper (a : ascii) : ascii :=
  let n := nat_of_ascii a in
  if bool_decide (97 ≤ n ∧ n ≤ 122) then ascii_of_nat (n - 32) else a.

(** Modelled from the spec: the rest of the text after the end of the
    current line (a line comment is skipped). *)
Fixpoint skipLine (s : string) : string :=
  match s with
  | EmptyString => EmptyString
  | String a rest =>
      if bool_decide (nat_of_ascii a = 10) then rest else skipLine rest
  end.

(** Modelled from the spec: the rest of the text after the closing [*/]
    of a block comment. *)
Fixpoint skipBlock (s : string) : string :=
  match s with
  | EmptyString => EmptyString
  | String a rest =>
      match rest with
      | String b rest' =>
          if bool_decide (a = "*"%char ∧ b = "/"%char) then rest'
          else skipBlock rest
      | EmptyString => EmptyString
      end
  end.

(** Modelled from the spec: leading white space, [-- ...] line comments
    and block comments removed; every round consumes a character, so the
    length of the text is fuel enough. *)
Fixpoint stripLeadingFuel (fuel : nat) (s : string) : string :=
  match fuel with
  | 0 => s
  | S fuel' =>
      match s with
      | EmptyString => EmptyString
      | String a rest =>
          if isSpace a then stripLeadingFuel fuel' rest
          else
            match rest with
            | String b rest' =>
                if bool_decide (a = "-"%char ∧ b = "-"%char)
                then stripLeadingFuel fuel' (skipLine rest')
                else if bool_decide (a = "/"%char ∧ b = "*"%char)
                then stripLeadingFuel fuel' (skipBlock rest')
                else s
            | EmptyString => s
            end
      end
  end.

(** Modelled from the spec: the statement without its leading comments. *)
Definition stripLeading (s : string) : string :=
  stripLeadingFuel (String.length s) s.

(** Modelled from the spec: the leading statement keyword, in upper case. *)
Fixpoint leadingKeyword (s : string) : string :=
  match s with
  | EmptyString => EmptyString
  | String a rest =>
      if isLetter a then String (upper a) (leadingKeyword rest)
      else EmptyString
  end.

(** Modelled from the spec: a lexical scan for the word [WHERE] outside
    string literals and outside parentheses. [word] is the word read so
    far, in upper case. *)
Fixpoint scanWhere (s : string) (depth : nat) (quoted : bool)
    (word : string) : bool :=
  match s with
  | EmptyString => bool_decide (depth = 0 ∧ word = "WHERE")
  | String a rest =>
      if quoted then
        scanWhere rest depth (negb (bool_decide (a = "'"%char))) ""
      else if isWordChar a then
        scanWhere rest depth false (word +:+ String (upper a) "")
      else if bool_decide (depth = 0 ∧ word = "WHERE") then true
      else if bool_decide (a = "'"%char) then scanWhere rest depth true ""
      else if bool_decide (a = "("%char) then
        scanWhere rest (S depth) false ""
      else if bool_decide (a = ")"%char) then
        scanWhere rest (pred depth) false ""
      else scanWhere rest depth false ""
  end.

(** Modelled from the spec: a [WHERE] at the top syntactic level. *)
Definition hasTopLevelWhere (s : string) : bool := scanWhere s 0 false "".

(** Modelled from the spec: the Safety Guard of section 4.4, part of the
    Rust core. The statement is classified by its leading keyword, case
    insensitively, after leading comments and white space; [DELETE] and
    [UPDATE] are destructive when the lexical scan finds no top-level
    [WHERE]; every [ALTER] counts as destructive, the spec accepting
    false positives. *)
Definition classify (sql : string) : Classification :=
  let body := stripLeading sql in
  let kw := leadingKeyword body in
  if decide (kw = "DROP") then Destructive Errors.Drop
  else if decide (kw = "TRUNCATE") then Destructive Errors.Truncate
  else if decide (kw = "DELETE") then
    if hasTopLevelWhere body then Safe
    else Destructive Errors.DeleteWithoutWhere
  else if decide (kw = "UPDATE") then
    if hasTopLevelWhere body then Safe
    else Destructive Errors.UpdateWithoutWhere
  else if decide (kw = "ALTER") then Destructive Errors.AlterDestructive
  else Safe.

End SafetyGuard.


(** ** The core behind the command surface *)

Module Profile.
(** Modelled from the spec: the ConnectionProfile of section 3, which
    the Rust registry keeps; it never contains a secret. *)
Record t : Type := mk {
  id : string;
  name : string;
  engineType : DatabaseType;
  host : string;
  port : number;
  database : string;
  username : string
}.
End Profile.

Module Pager.

(** Modelled from the spec: the page rule of section 4.7 (the Cursor
    Pager is part of the Rust core). A page is cut from the batch that
    was fetched: rows beyond the page size are dropped, and their presence
    is what [hasMore] reports. *)
Definition page (columns : list ColumnInfo.t) (totalCount : number)
    (pageSize : nat) (batch : list (gmap string JsValue))
  : TableDataResult.t :=
  {| TableDataResult.columns := columns;
     TableDataResult.rows := take pageSize batch;
     TableDataResult.totalCount := totalCount;
     TableDataResult.hasMore := bool_decide (pageSize < length batch) |}.

(** Modelled from the spec: the fetch of one page at a numeric position,
    limited to the page size plus the one look-ahead row of section 4.7. *)
Definition fetch (pageSize offset : nat) (scan : list (gmap string JsValue))
  : list (gmap string JsValue) :=
  take (pageSize + 1) (drop offset scan).

End Pager.

Module Core.

(** Modelled from the spec: what a database engine answers to one
    statement (columns, rows in engine order, duration). *)
Record Answer : Type := mkAnswer {
  answerColumns : list ColumnInfo.t;
  answerRows : list (gmap string JsValue);
  durationMs : number
}.

(** Modelled from the spec: a table as the pager sees it: its columns,
    its rows in pager order and the result of the count query. *)
Record TableScan : Type := mkScan {
  scanColumns : list ColumnInfo.t;
  scanRows : list (gmap string JsValue);
  scanCount : number
}.

(** Modelled from the spec: the database servers as the core observes
    them. Answers may depend on the statements dispatched so far. *)
Record Engine : Type := mkEngine {
  probe : TestConnectionParams.t → option Errors.ConnectionError;
  answer : list (string * string) → string → string
           → Errors.QueryError + Answer;
  scan : list (string * string) → string → option string → string
         → Errors.CoreError + TableScan
}.

(** Modelled from the spec: the state of the Rust core (sections 2 to
    4): the Connection Registry, the Credential Vault keyed by profile
    id, the materialised pools, the statements dispatched to an engine,
    and the identifiers the registry draws ([ids (drawn)] is the next). *)
Record State : Type := mkState {
  profiles : list Profile.t;
  vault : gmap string string;
  pools : gset string;
  dispatched : list (string * string);
  ids : nat → string;
  drawn : nat;
  engine : Engine
}.

(** Modelled from the spec: the QueryRequest of section 3, without the
    cancellation token. *)
Record QueryRequest : Type := mkRequest {
  profileId : string;
  sql : string;
  rowLimit : option nat;
  offset : nat
}.

(** Modelled from the spec: the default bound on rows of section 4.5. *)
Definition defaultRowLimit : nat := 100.

(** *** Credential Vault (section 4.1) *)

(** Modelled from the spec: [store(profileId, secret)]. *)
Definition vaultStore (profileId secret : string) (v : gmap string string)
  : gmap string string :=
  <[profileId := secret]> v.

(** Modelled from the spec: [retrieve(profileId) -> secret | NotFound]. *)
Definition vaultRetrieve (profileId : string) (v : gmap string string)
  : Errors.VaultError + string :=
  match v !! profileId with
  | Some secret => inr secret
  | None => inl Errors.NotFound
  end.

(** Modelled from the spec: [delete(profileId)]. *)
Definition vaultDelete (profileId : string) (v : gmap string string)
  : gmap string string :=
  delete profileId v.

(** *** Connection Registry (section 4.2) *)

(** Modelled from the spec: the profile made of the fields of the
    command, the password left out. *)
Definition profileOf (id : string) (p : CreateConnectionParams.t)
  : Profile.t :=
  {| Profile.id := id;
     Profile.name := CreateConnectionParams.name p;
     Profile.engineType := CreateConnectionParams.type p;
     Profile.host := CreateConnectionParams.host p;
     Profile.port := CreateConnectionParams.port p;
     Profile.database := CreateConnectionParams.database p;
     Profile.username := CreateConnectionParams.username p |}.

(** Modelled from the spec: [list() -> [profile]]. *)
Definition listProfiles (st : State) : list Profile.t := profiles st.

(** Modelled from the spec: the [createConnection] command: the registry
    draws an identifier, refuses one that is taken (uniqueness of
    profile ids), otherwise records the profile and puts the password in
    the vault under the new identifier, which it returns. *)
Definition createConnection (p : CreateConnectionParams.t) (st : State)
  : Api.Settled string * State :=
  let id := ids st (drawn st) in
  if decide (id ∈ Profile.id <$> profiles st) then
    (Api.Rejected
       (Api.Structured (Errors.Validation "connection id already in use")),
     mkState (profiles st) (vault st) (pools st) (dispatched st) (ids st)
             (S (drawn st)) (engine st))
  else
    (Api.Resolved id,
     mkState (profiles st ++ [profileOf id p])
             (vaultStore id (CreateConnectionParams.password p) (vault st))
             (pools st) (dispatched st) (ids st) (S (drawn st)) (engine st)).

(** Modelled from the spec: the [deleteConnection] command: the profile
    leaves the registry, its vault entry is deleted and its pool closed. *)
Definition deleteConnection (id : string) (st : State)
  : Api.Settled unit * State :=
  (Api.Resolved (),
   mkState (filter (λ p, Profile.id p ≠ id) (profiles st))
           (vaultDelete id (vault st))
           (pools st ∖ {[id]}) (dispatched st) (ids st) (drawn st)
           (engine st)).

(** *** Connection Pool Manager (section 4.3) *)

(** Modelled from the spec: the [testConnection] command: one ephemeral
    connection, a result in every case, registry and pools untouched. *)
Definition testConnection (p : TestConnectionParams.t) (st : State)
  : Api.Settled TestConnectionResult.t * State :=
  match probe (engine st) p with
  | None =>
      (Api.Resolved {| TestConnectionResult.success := true;
                       TestConnectionResult.error := None |}, st)
  | Some e =>
      (Api.Resolved
         {| TestConnectionResult.success := false;
            TestConnectionResult.error :=
              Some (Errors.connectionErrorName e) |}, st)
  end.

(** *** Query Executor (section 4.5) *)

(** Modelled from the spec: the statement goes to the engine over the
    profile's pool, and the rows are cut at the row limit, or at the
    default bound when the request has none. *)
Definition dispatch (req : QueryRequest) (st : State)
  : (Errors.QueryError + QueryResult.t) * State :=
  let st1 :=
    mkState (profiles st) (vault st) ({[profileId req]} ∪ pools st)
            (dispatched st ++ [(profileId req, sql req)]) (ids st)
            (drawn st) (engine st) in
  match answer (engine st) (dispatched st) (profileId req) (sql req) with
  | inl e => (inl e, st1)
  | inr a =>
      let batch :=
        take (default defaultRowLimit (rowLimit req))
             (drop (offset req) (answerRows a)) in
      (inr {| QueryResult.columns := answerColumns a;
              QueryResult.rows := batch;
              QueryResult.rowCount := Int (Z.of_nat (length batch));
              QueryResult.executionTimeMs := durationMs a |}, st1)
  end.

(** Modelled from the spec: [execute(QueryRequest, confirmed)]: classify,
    fail fast on a destructive statement that is not confirmed, otherwise
    run it. *)
Definition execute (req : QueryRequest) (confirmed : bool) (st : State)
  : (Errors.QueryError + QueryResult.t) * State :=
  match SafetyGuard.classify (sql req), confirmed with
  | SafetyGuard.Destructive kind, false =>
      (inl (Errors.ConfirmationRequired kind), st)
  | _, _ => dispatch req st
  end.

(** *** Decoding the payloads of the command surface *)

(** Modelled from the spec: a row count sent as a JavaScript number:
    [NaN] is serialised as [null] and reads as absent; a negative number
    is no count. *)
Definition decodeCount (n : option number) : option (option nat) :=
  match n with
  | None | Some NaN => Some None
  | Some (Int z) =>
      if decide (0 ≤ z)%Z then Some (Some (Z.to_nat z)) else None
  end.

(** Modelled from the spec: the QueryRequest a payload stands for. *)
Definition decodeRequest (p : ExecuteQueryParams.t) : option QueryRequest :=
  match decodeCount (ExecuteQueryParams.limit p),
        decodeCount (ExecuteQueryParams.offset p) with
  | Some lim, Some off =>
      Some {| profileId := ExecuteQueryParams.connectionId p;
              sql := ExecuteQueryParams.sql p;
              rowLimit := lim;
              offset := default 0 off |}
  | _, _ => None
  end.

(** Modelled from the spec: errors cross the boundary structured. *)
Definition settle {A : Type} (r : Errors.QueryError + A) : Api.Settled A :=
  match r with
  | inl e => Api.Rejected (Api.Structured (Errors.OfQuery e))
  | inr a => Api.Resolved a
  end.

(** Modelled from the spec: the answer to a payload that is no request. *)
Definition invalidPayload {A : Type} : Api.Settled A :=
  Api.Rejected
    (Api.Structured (Errors.OfQuery (Errors.Rejected "invalid parameters"))).

(** Modelled from the spec: the [executeQuery] command as the front end
    can send it. The payload has no confirmation, and absent that flag a
    destructive statement is refused. *)
Definition executeQuery (p : ExecuteQueryParams.t) (st : State)
  : Api.Settled QueryResult.t * State :=
  match decodeRequest p with
  | Some req => let '(r, st1) := execute req false st in (settle r, st1)
  | None => (invalidPayload, st)
  end.

(** Modelled from the spec: the [getTableData] command at a numeric
    offset: one page of at most [limit] rows (the default bound when the
    limit is absent), cut from a batch fetched with one look-ahead row. *)
Definition getTableData (p : GetTableDataParams.t) (st : State)
  : Api.Settled TableDataResult.t * State :=
  match decodeCount (GetTableDataParams.limit p),
        decodeCount (GetTableDataParams.offset p) with
  | Some lim, Some off =>
      match scan (engine st) (dispatched st)
                 (GetTableDataParams.connectionId p)
                 (GetTableDataParams.schema p)
                 (GetTableDataParams.tableName p) with
      | inl e => (Api.Rejected (Api.Structured e), st)
      | inr t =>
          let pageSize := default defaultRowLimit lim in
          (Api.Resolved
             (Pager.page (scanColumns t) (scanCount t) pageSize
                (Pager.fetch pageSize (default 0 off) (scanRows t))), st)
      end
  | _, _ => (invalidPayload, st)
  end.

(** Modelled from the spec: the core as the backend of [invoke]. *)
Definition invoke (R : Type) (c : Api.Command R) (st : State)
  : Api.Settled R * State :=
  match c in Api.Command R0 return Api.Settled R0 * State with
  | Api.create_connection p => createConnection p st
  | Api.test_connection p => testConnection p st
  | Api.delete_connection id => deleteConnection id st
  | Api.execute_query p => executeQuery p st
  | Api.get_table_data p => getTableData p st
  end.

#[global] Instance backend : Api.Backend State := invoke.

(** Modelled from the spec: a core that has done nothing yet. *)
Definition fresh (ids : nat → string) (engine : Engine) : State :=
  mkState [] ∅ ∅ [] ids 0 engine.

End Core.


(** ** Built-ins and sample data *)

Module Builtins.

Definition isDigit (a : ascii) : bool :=
  let n := nat_of_ascii a in bool_decide (48 ≤ n ∧ n ≤ 57).

Fixpoint dropSpaces (s : string) : string :=
  match s with
  | EmptyString => EmptyString
  | String a rest => if SafetyGuard.isSpace a then dropSpaces rest else s
  end.

Fixpoint digits (s : string) (acc : option Z) : option Z :=
  match s with
  | EmptyString => acc
  | String a rest =>
      if isDigit a
      then digits rest
             (Some (10 * default 0%Z acc + Z.of_nat (nat_of_ascii a - 48))%Z)
      else acc
  end.

Definition ofDigits (s : string) (sign : Z) : number :=
  match digits s None with
  | Some z => Int (sign * z)
  | None => NaN
  end.

(** [parseInt(s, 10)] on ASCII text: leading white space, an optional
    sign, then the longest run of decimal digits; [NaN] without a digit. *)
Definition parseInt10 (s : string) : number :=
  match dropSpaces s with
  | String a rest =>
      if bool_decide (a = "-"%char) then ofDigits rest (-1)
      else if bool_decide (a = "+"%char) then ofDigits rest 1
      else ofDigits (String a rest) 1
  | EmptyString => NaN
  end.

Fixpoint trimEnd (s : string) : string :=
  match s with
  | EmptyString => EmptyString
  | String a rest =>
      let rest' := trimEnd rest in
      if SafetyGuard.isSpace a && bool_decide (rest' = "") then ""
      else String a rest'
  end.

(** [s.trim()] on ASCII text. *)
Definition trim (s : string) : string := trimEnd (dropSpaces s).

End Builtins.

Module Sample.

Definition newline : string := String (ascii_of_nat 10) "".

Definition local : Connection.t :=
  Connection.mk "c1" "Local" postgres "localhost" (Int 5432) "app" "alice"
                false None.

Definition staging : Connection.t :=
  Connection.mk "c2" "Staging" mysql "db.example.org" (Int 3306) "shop"
                "bob" false None.

(** Two connections, two tabs on the first and one on the second. *)
Definition twoConnections : Store.ConnectionStore :=
  Store.run [ Store.AddConnection local; Store.AddConnection staging;
              Store.AddQueryTab "t1" "c1"; Store.AddQueryTab "t2" "c2";
              Store.AddQueryTab "t3" "c1";
              Store.SetActiveConnection (Some "c1") ]
            Store.initial.

(** The first connection after one successful connect. *)
Definition connectedOnce : Store.ConnectionStore :=
  Store.run [ Store.AddConnection local;
              Store.SetConnectionStatus "2025-01-01T00:00:00.000Z" "c1" true ]
            Store.initial.

Definition row (k : Z) : gmap string JsValue :=
  {[ "id" := JsNumber (Int k) ]}.

Definition idColumn : ColumnInfo.t := ColumnInfo.mk "id" "integer" false.

(** An engine that is reachable, answers every statement with the rows
    1 to 150 and holds the rows 1 to 5 in every table. *)
Definition engine : Core.Engine :=
  {| Core.probe := λ _, None;
     Core.answer := λ _ _ _,
       inr (Core.mkAnswer [idColumn] (row <$> seqZ 1 150) (Int 3));
     Core.scan := λ _ _ _ _,
       inr (Core.mkScan [idColumn] (row <$> seqZ 1 5) (Int 5)) |}.

Definition ids (n : nat) : string := "conn-" +:+ Store.decimal n.

Definition emptyCore : Core.State := Core.fresh ids engine.

Definition localParams (password : string) : CreateConnectionParams.t :=
  CreateConnectionParams.mk "Local" postgres "localhost" (Int 5432) "app"
                            "alice" password.

(** A core that holds the profile [conn-0] with its secret. *)
Definition coreWithLocal : Core.State :=
  snd (Core.createConnection (localParams "old secret") emptyCore).

Definition dropUsers : string :=
  "-- cleanup" +:+ newline +:+ "DROP TABLE users".

Definition dropRequest : ExecuteQueryParams.t :=
  ExecuteQueryParams.mk "conn-0" dropUsers (Some (Int 100)) (Some (Int 0)).

(** The dialog opened on the stored connection [conn-0], the user having
    changed the host and typed a new password. *)
Definition storedLocal : Connection.t :=
  Connection.mk "conn-0" "Local" postgres "localhost" (Int 5432) "app"
                "alice" false None.

Definition editForm : FormData.t :=
  FormData.mk "Local" postgres "db.internal" "5433" "app" "alice"
              "new secret".

Definition editWorld : Dialog.World Core.State :=
  Dialog.mkWorld (Store.addConnection storedLocal Store.initial)
    (Dialog.mkState (Some storedLocal) true editForm false None false)
    coreWithLocal.

(** The editor on a store with an active tab that holds a statement. *)
Definition editorStore : Store.ConnectionStore :=
  Store.run [ Store.AddConnection storedLocal;
              Store.SetActiveConnection (Some "conn-0");
              Store.AddQueryTab "t1" "conn-0";
              Store.UpdateQueryTab "t1"
                (QueryTab.mkPartial None None None (Some "SELECT * FROM users")
                                    None None) ]
            Store.initial.

Definition editorWorld : Editor.World (Core.State * list Api.AnyCommand) :=
  Editor.mkWorld editorStore (Editor.mkState false None) (coreWithLocal, []).

End Sample.

(** ** The persisted projection in the words of the specification *)

Module Spec.

(** An entry restricted to id, name, engine type, host, port, database
    and user name, with [isConnected] forced to [false]. *)
Definition metadataOnly (c : Connection.t) : Connection.t :=
  {| Connection.id := Connection.id c;
     Connection.name := Connection.name c;
     Connection.type := Connection.type c;
     Connection.host := Connection.host c;
     Connection.port := Connection.port c;
     Connection.database := Connection.database c;
     Connection.username := Connection.username c;
     Connection.isConnected := false;
     Connection.lastConnected := None |}.

Definition persisted (s : Store.ConnectionStore) : Store.Persisted :=
  {| Store.p_connections := metadataOnly <$> Store.connections s;
     Store.p_sidebarWidth := Store.sidebarWidth s;
     Store.p_theme := Store.theme s |}.

End Spec.


(** * Properties *)

(** ** The store: frames of the update actions *)

Section StoreFrames.
Implicit Types (s : Store.ConnectionStore) (i : nat).

Lemma updateConnection_lookup_other s X u i c :
  Store.connections s !! i = Some c →
  Connection.id c ≠ X →
  Store.connections (Store.updateConnection X u s) !! i = Some c.
Proof.
  intros Hi Hne. cbn. rewrite list_lookup_fmap, Hi. cbn.
  by destruct (decide (Connection.id c = X)).
Qed.

Lemma updateQueryTab_lookup_other s X u i t :
  Store.queryTabs s !! i = Some t →
  QueryTab.id t ≠ X →
  Store.queryTabs (Store.updateQueryTab X u s) !! i = Some t.
Proof.
  intros Hi Hne. cbn. rewrite list_lookup_fmap, Hi. cbn.
  by destruct (decide (QueryTab.id t = X)).
Qed.

Lemma updateConnection_length s X u :
  length (Store.connections (Store.updateConnection X u s))
  = length (Store.connections s).
Proof. cbn. apply length_fmap. Qed.

Lemma updateQueryTab_length s X u :
  length (Store.queryTabs (Store.updateQueryTab X u s))
  = length (Store.queryTabs s).
Proof. cbn. apply length_fmap. Qed.

(** The entry that is updated keeps its place and becomes the spread. *)
Lemma updateConnection_lookup_same s X u i c :
  Store.connections s !! i = Some c →
  Connection.id c = X →
  Store.connections (Store.updateConnection X u s) !! i
  = Some (Connection.spread c u).
Proof.
  intros Hi He. cbn. rewrite list_lookup_fmap, Hi. cbn.
  by destruct (decide (Connection.id c = X)).
Qed.

(** Looked up by id, the connection Y is the same before and after an
    update of X that does not rename X. *)
Lemma updateConnection_find_other s X Y u :
  X ≠ Y →
  Connection.id' u = None →
  snd <$> list_find (λ c, Connection.id c = Y)
                    (Store.connections (Store.updateConnection X u s))
  = snd <$> list_find (λ c, Connection.id c = Y) (Store.connections s).
Proof.
  intros Hne Hid. cbn.
  assert (Hshift : ∀ o : option (nat * Connection.t),
            snd <$> (prod_map S id <$> o) = snd <$> o)
    by (by intros [[]|]).
  induction (Store.connections s) as [|c cs IH]; [reflexivity |].
  cbn. destruct (decide (Connection.id c = X)) as [HX|HX].
  - assert (Hsame : Connection.id (Connection.spread c u) = Connection.id c)
      by (unfold Connection.spread; cbn; by rewrite Hid).
    rewrite !decide_False by congruence.
    rewrite !Hshift. exact IH.
  - destruct (decide (Connection.id c = Y)); [reflexivity |].
    rewrite !Hshift. exact IH.
Qed.

End StoreFrames.

(** C8. For ids X and Y with X ≠ Y, [updateConnection X] leaves every
    connection whose id is Y as it was, at its place in the list, and
    [updateQueryTab X] does the same for every tab whose id is Y; both
    leave all the other fields of the store as they were
    (activeConnectionId, activeTabId, tables, sidebarWidth, theme, and
    the list the action is not about). *)
Theorem update_actions_frame (s : Store.ConnectionStore) (X Y : string)
    (uc : Connection.partial) (ut : QueryTab.partial) :
  X ≠ Y →
  let sc := Store.updateConnection X uc s in
  let st := Store.updateQueryTab X ut s in
  (∀ i c, Store.connections s !! i = Some c → Connection.id c = Y →
          Store.connections sc !! i = Some c)
  ∧ length (Store.connections sc) = length (Store.connections s)
  ∧ (∀ i t, Store.queryTabs s !! i = Some t → QueryTab.id t = Y →
            Store.queryTabs st !! i = Some t)
  ∧ length (Store.queryTabs st) = length (Store.queryTabs s)
  ∧ (Store.activeConnectionId sc = Store.activeConnectionId s
     ∧ Store.queryTabs sc = Store.queryTabs s
     ∧ Store.activeTabId sc = Store.activeTabId s
     ∧ Store.tables sc = Store.tables s
     ∧ Store.sidebarWidth sc = Store.sidebarWidth s
     ∧ Store.theme sc = Store.theme s)
  ∧ (Store.connections st = Store.connections s
     ∧ Store.activeConnectionId st = Store.activeConnectionId s
     ∧ Store.activeTabId st = Store.activeTabId s
     ∧ Store.tables st = Store.tables s
     ∧ Store.sidebarWidth st = Store.sidebarWidth s
     ∧ Store.theme st = Store.theme s).
Proof.
  intros Hne sc st. split_and!; try reflexivity.
  - intros i c Hi Hc. apply updateConnection_lookup_other; congruence.
  - apply updateConnection_length.
  - intros i t Hi Ht. apply updateQueryTab_lookup_other; congruence.
  - apply updateQueryTab_length.
Qed.

Lemma update_actions_frame_witness :
  "c1" ≠ "c2"
  ∧ Store.connections
      (Store.updateConnection "c1"
         (Connection.mkPartial None (Some "Renamed") None None None None None
                               None None)
         Sample.twoConnections) !! 1
    = Some Sample.staging.
Proof.
  split; [done |].
  apply (update_actions_frame Sample.twoConnections "c1" "c2"
           (Connection.mkPartial None (Some "Renamed") None None None None
                                 None None None)
           QueryTab.noUpdates);
    [done | reflexivity | reflexivity].
Defined.

(** ** The store: query tabs *)

Lemma to_uint_nonnil (n : nat) : Nat.to_uint n ≠ Decimal.Nil.
Proof.
  intros Hn. pose proof (Unsigned.of_to n) as Hof. rewrite Hn in Hof.
  cbn in Hof. subst n. discriminate Hn.
Qed.

Lemma decimal_inj (n m : nat) : Store.decimal n = Store.decimal m → n = m.
Proof.
  unfold Store.decimal. intros H.
  apply (f_equal NilZero.uint_of_string) in H.
  rewrite !NilZero.usu in H by apply to_uint_nonnil.
  apply Unsigned.to_uint_inj. congruence.
Qed.

(** C9. [addQueryTab] appends exactly one tab: the new tab has the
    generated id and the given connection, the title "Query N" with N one
    plus the number of tabs the connection already has, an empty
    statement, no results and [isRunning = false]; it becomes the active
    tab, and nothing else in the store changes. *)
Theorem addQueryTab_appends_active_tab (s : Store.ConnectionStore)
    (newTabId connectionId : string) :
  let s' := Store.addQueryTab newTabId connectionId s in
  let N :=
    1 + length (filter (λ t, QueryTab.connectionId t = connectionId)
                       (Store.queryTabs s)) in
  Store.queryTabs s'
  = Store.queryTabs s ++
      [QueryTab.mk newTabId connectionId ("Query " +:+ Store.decimal N) ""
                   None false]
  ∧ length (Store.queryTabs s') = S (length (Store.queryTabs s))
  ∧ Store.activeTabId s' = Some newTabId
  ∧ Store.connections s' = Store.connections s
  ∧ Store.activeConnectionId s' = Store.activeConnectionId s
  ∧ Store.tables s' = Store.tables s
  ∧ Store.sidebarWidth s' = Store.sidebarWidth s
  ∧ Store.theme s' = Store.theme s.
Proof.
  intros s' N. subst s' N. cbn -[Store.decimal].
  split_and!; try reflexivity.
  - by rewrite Nat.add_1_r.
  - rewrite length_app. cbn. lia.
Qed.

(** The third tab of a connection is titled "Query 3", whatever other
    connections have open. *)
Example addQueryTab_third_title :
  QueryTab.title
    <$> last (Store.queryTabs
                (Store.addQueryTab "t4" "c1" Sample.twoConnections))
  = Some "Query 3".
Proof. reflexivity. Qed.

(** C10. [removeQueryTab] keeps exactly the tabs with another id, in
    their order; when the removed id was the active one the active tab
    becomes the last of the remaining tabs, or null when none remains,
    and otherwise [activeTabId] is unchanged. *)
Theorem removeQueryTab_removes_and_reselects (s : Store.ConnectionStore)
    (id : string) :
  let s' := Store.removeQueryTab id s in
  Store.queryTabs s' = filter (λ t, QueryTab.id t ≠ id) (Store.queryTabs s)
  ∧ (∀ t, t ∈ Store.queryTabs s'
          ↔ t ∈ Store.queryTabs s ∧ QueryTab.id t ≠ id)
  ∧ Store.queryTabs s' `sublist_of` Store.queryTabs s
  ∧ Store.activeTabId s'
    = (if decide (Store.activeTabId s = Some id)
       then match last (Store.queryTabs s') with
            | Some t => Some (QueryTab.id t)
            | None => None
            end
       else Store.activeTabId s)
  ∧ Store.connections s' = Store.connections s
  ∧ Store.activeConnectionId s' = Store.activeConnectionId s.
Proof.
  intros s'. subst s'. cbn. split_and!; try reflexivity.
  - intros t. rewrite list_elem_of_filter. tauto.
  - apply sublist_filter.
  - destruct (decide (Store.activeTabId s = Some id)) as [He|Hn].
    + rewrite bool_decide_eq_true_2 by done. by destruct (last _).
    + by rewrite bool_decide_eq_false_2.
Qed.

(** With distinct tab ids, removing the id of a tab that is there
    shortens the list by exactly one. *)
Lemma removeQueryTab_length (s : Store.ConnectionStore) (id : string) :
  NoDup (QueryTab.id <$> Store.queryTabs s) →
  id ∈ QueryTab.id <$> Store.queryTabs s →
  S (length (Store.queryTabs (Store.removeQueryTab id s)))
  = length (Store.queryTabs s).
Proof.
  cbn. induction (Store.queryTabs s) as [|t tabs IH]; intros Hnd Hin.
  - by apply elem_of_nil in Hin.
  - rewrite fmap_cons in Hnd, Hin. apply NoDup_cons in Hnd as [Hnotin Hnd].
    rewrite filter_cons. destruct (decide (QueryTab.id t ≠ id)) as [Hne|He].
    + cbn. f_equal. apply IH; [done |].
      apply elem_of_cons in Hin as [->|Hin]; [done | done].
    + apply dec_stable in He. subst id. cbn. f_equal.
      clear IH Hin Hnd. induction tabs as [|t' tabs IH]; [done |].
      rewrite fmap_cons in Hnotin. apply not_elem_of_cons in Hnotin as [? ?].
      rewrite filter_cons, decide_True by done. cbn. f_equal. by apply IH.
Qed.

Example removeQueryTab_active_example :
  Store.activeTabId (Store.removeQueryTab "t3" Sample.twoConnections)
  = Some "t2"
  ∧ Store.activeTabId (Store.removeQueryTab "t1" Sample.twoConnections)
    = Some "t3".
Proof. split; reflexivity. Qed.

(** ** Persistence *)

Lemma run_snoc (acts : list Store.Action) (a : Store.Action)
    (s : Store.ConnectionStore) :
  Store.run (acts ++ [a]) s = Store.step a (Store.run acts s).
Proof. unfold Store.run. by rewrite foldl_app. Qed.

(** Every run of actions from the initial state ends in a reachable
    state, and every reachable state is the end of such a run. *)
Lemma reachable_run (acts : list Store.Action) :
  Store.reachable (Store.run acts Store.initial).
Proof.
  induction acts as [|a acts IH] using rev_ind.
  - constructor.
  - rewrite run_snoc. by constructor.
Qed.

Lemma reachable_is_run (s : Store.ConnectionStore) :
  Store.reachable s → ∃ acts, s = Store.run acts Store.initial.
Proof.
  induction 1 as [|a s _ [acts ->]].
  - by exists [].
  - exists (acts ++ [a]). by rewrite run_snoc.
Qed.

Lemma offline_fields (c : Connection.t) :
  Store.offline c
  = Connection.mk (Connection.id c) (Connection.name c) (Connection.type c)
      (Connection.host c) (Connection.port c) (Connection.database c)
      (Connection.username c) false (Connection.lastConnected c).
Proof. reflexivity. Qed.

(** C1, as stated, fails: after one successful connect the persisted
    entry is not the entry restricted to the seven metadata fields with
    [isConnected] forced to false, because it also carries
    [lastConnected]. *)
Lemma persisted_entry_keeps_lastConnected :
  Store.reachable Sample.connectedOnce
  ∧ Store.partialize Sample.connectedOnce
    ≠ Spec.persisted Sample.connectedOnce
  ∧ Connection.lastConnected
      <$> Store.p_connections (Store.partialize Sample.connectedOnce)
    = [Some "2025-01-01T00:00:00.000Z"].
Proof.
  split_and!.
  - apply reachable_run.
  - vm_compute. discriminate.
  - reflexivity.
Qed.

(** C1, amended. In every reachable state the persisted projection
    holds no secret and no connectivity status: it consists of the
    connection list, the sidebar width and the theme; every persisted
    entry is the stored connection's id, name, engine type, host, port,
    database, user name and last-connected time stamp with [isConnected]
    forced to false; the connection record has these nine fields and no
    password among them. *)
Theorem partialize_no_secret_no_status (s : Store.ConnectionStore) :
  Store.reachable s →
  Store.partialize s
  = Store.mkPersisted
      ((λ c, Connection.mk (Connection.id c) (Connection.name c)
               (Connection.type c) (Connection.host c) (Connection.port c)
               (Connection.database c) (Connection.username c) false
               (Connection.lastConnected c)) <$> Store.connections s)
      (Store.sidebarWidth s) (Store.theme s)
  ∧ Forall (λ c, Connection.isConnected c = false)
           (Store.p_connections (Store.partialize s))
  ∧ Connection.id <$> Store.p_connections (Store.partialize s)
    = Connection.id <$> Store.connections s
  ∧ (∀ c, c ∈ Store.connections s →
          c = Connection.mk (Connection.id c) (Connection.name c)
                (Connection.type c) (Connection.host c) (Connection.port c)
                (Connection.database c) (Connection.username c)
                (Connection.isConnected c) (Connection.lastConnected c)).
Proof.
  intros _. split_and!.
  - reflexivity.
  - cbn. apply Forall_fmap, Forall_true. by intros c.
  - cbn. rewrite <- list_fmap_compose. reflexivity.
  - by intros [] _.
Qed.

Lemma partialize_no_secret_no_status_witness :
  Store.reachable Sample.connectedOnce
  ∧ Forall (λ c, Connection.isConnected c = false)
           (Store.p_connections (Store.partialize Sample.connectedOnce)).
Proof.
  pose proof (reachable_run
    [ Store.AddConnection Sample.local;
      Store.SetConnectionStatus "2025-01-01T00:00:00.000Z" "c1" true ])
    as Hreach.
  split; [exact Hreach |].
  exact (proj1 (proj2
    (partialize_no_secret_no_status Sample.connectedOnce Hreach))).
Defined.

(** The connection status itself is not lost by the store: only the
    persisted projection forgets it. *)
Example connectedOnce_is_connected :
  Connection.isConnected <$> Store.connections Sample.connectedOnce = [true].
Proof. reflexivity. Qed.

(** The password typed into the dialog never reaches the store: two
    saves that differ in the password alone, and that the backend answers
    alike, leave the same store behind. *)
Lemma handleSave_store_ignores_password {B : Type} `{!Api.Backend B}
    (parseInt10 : string → number) (w : Dialog.World B)
    (password1 password2 : string) :
  let form pw :=
    FormData.mk (FormData.name (Dialog.formData (Dialog.dialog w)))
                (FormData.type (Dialog.formData (Dialog.dialog w)))
                (FormData.host (Dialog.formData (Dialog.dialog w)))
                (FormData.port (Dialog.formData (Dialog.dialog w)))
                (FormData.database (Dialog.formData (Dialog.dialog w)))
                (FormData.username (Dialog.formData (Dialog.dialog w)))
                pw in
  let world pw :=
    Dialog.mkWorld (Dialog.store w)
                   (Dialog.set_formData (form pw) (Dialog.dialog w))
                   (Dialog.backend w) in
  fst (Api.createConnection (Dialog.createParams parseInt10 (form password1))
                            (Dialog.backend w))
  = fst (Api.createConnection
           (Dialog.createParams parseInt10 (form password2))
           (Dialog.backend w)) →
  Dialog.store (Dialog.handleSave parseInt10 (world password1))
  = Dialog.store (Dialog.handleSave parseInt10 (world password2)).
Proof.
  intros form world Hreply. unfold Dialog.handleSave. cbn.
  destruct (Dialog.editConnection (Dialog.dialog w)) as [c|].
  - destruct (decide (password1 = "")), (decide (password2 = ""));
      repeat match goal with
             | |- context [Api.createConnection ?p ?b] =>
                 destruct (Api.createConnection p b) as [[?|?] ?]
             end; reflexivity.
  - fold (form password1) (form password2) in *.
    destruct (Api.createConnection _ _) as [[id1|e1] b1],
             (Api.createConnection _ _) as [[id2|e2] b2];
      cbn in Hreply; try discriminate; try reflexivity.
    by injection Hreply as ->.
Qed.

(** ** Deleting a connection *)

(** C7. Deleting the connection [id] removes it entirely: the core's
    [deleteConnection] takes it out of the registry's list and deletes
    its secret, so that a later [retrieve id] answers [NotFound] (the
    secrets of other ids are untouched); the store's [removeConnection]
    takes it out of the connection list, removes all query tabs that
    belong to it and no others, and sets [activeConnectionId] to null
    when it pointed at [id], leaving it alone otherwise. *)
Theorem delete_removes_connection_entirely (id : string)
    (core : Core.State) (s : Store.ConnectionStore) :
  let core' := snd (Api.deleteConnection id core) in
  let s' := Store.removeConnection id s in
  fst (Api.deleteConnection id core) = Api.Resolved ()
  ∧ (id ∉ Profile.id <$> Core.listProfiles core')
  ∧ (∀ p, p ∈ Core.listProfiles core'
          ↔ p ∈ Core.listProfiles core ∧ Profile.id p ≠ id)
  ∧ Core.vaultRetrieve id (Core.vault core') = inl Errors.NotFound
  ∧ (∀ other, other ≠ id →
        Core.vaultRetrieve other (Core.vault core')
        = Core.vaultRetrieve other (Core.vault core))
  ∧ (id ∉ Core.pools core')
  ∧ (id ∉ Connection.id <$> Store.connections s')
  ∧ (∀ c, c ∈ Store.connections s'
          ↔ c ∈ Store.connections s ∧ Connection.id c ≠ id)
  ∧ (∀ t, t ∈ Store.queryTabs s'
          ↔ t ∈ Store.queryTabs s ∧ QueryTab.connectionId t ≠ id)
  ∧ Store.activeConnectionId s'
    = (if decide (Store.activeConnectionId s = Some id) then None
       else Store.activeConnectionId s)
  ∧ (Store.activeConnectionId s' = None
     ↔ Store.activeConnectionId s = Some id
       ∨ Store.activeConnectionId s = None).
Proof.
  intros core' s'. subst core' s'. cbn. split_and!.
  - reflexivity.
  - intros Hin. apply list_elem_of_fmap in Hin as (p & Hid & Hp).
    apply list_elem_of_filter in Hp as [Hne _]. by apply Hne.
  - intros p. rewrite list_elem_of_filter. tauto.
  - unfold Core.vaultRetrieve, Core.vaultDelete. by rewrite lookup_delete_eq.
  - intros other Hne. unfold Core.vaultRetrieve, Core.vaultDelete.
    by rewrite lookup_delete_ne.
  - intros [_ Hn]%elem_of_difference. apply Hn. by apply elem_of_singleton.
  - intros Hin. apply list_elem_of_fmap in Hin as (c & Hid & Hc).
    apply list_elem_of_filter in Hc as [Hne _]. by apply Hne.
  - intros c. rewrite list_elem_of_filter. tauto.
  - intros t. rewrite list_elem_of_filter. tauto.
  - reflexivity.
  - destruct (decide (Store.activeConnectionId s = Some id)) as [He|Hn].
    + split; [intros _; by left | done].
    + split; [intros Hnone; by right | intros [?|?]; done].
Qed.

Example delete_then_retrieve_example :
  Core.vaultRetrieve "conn-0" (Core.vault Sample.coreWithLocal)
  = inr "old secret"
  ∧ Core.vaultRetrieve "conn-0"
      (Core.vault (snd (Api.deleteConnection "conn-0" Sample.coreWithLocal)))
    = inl Errors.NotFound.
Proof. split; reflexivity. Qed.

(** ** Testing a connection *)

(** C5. Whether [testConnection] resolves with [{success, error?}] or
    rejects, the dialog's test handler ends with [testing = false] and
    with a test result: on a resolved call its success flag is the
    reported one and its message is the success text, or on failure the
    reported error, or the fallback when the error is missing or empty;
    on a rejected call the flag is false and the message is the error's
    message or the fallback. The store is not touched. *)
Theorem handleTestConnection_always_yields_result {B : Type}
    `{!Api.Backend B} (parseInt10 : string → number) (w : Dialog.World B) :
  let f := Dialog.formData (Dialog.dialog w) in
  let call :=
    Api.testConnection
      (TestConnectionParams.mk (FormData.type f) (FormData.host f)
         (parseInt10 (FormData.port f)) (FormData.database f)
         (FormData.username f) (FormData.password f))
      (Dialog.backend w) in
  let w' := Dialog.handleTestConnection parseInt10 w in
  Dialog.testing (Dialog.dialog w') = false
  ∧ Dialog.testResult (Dialog.dialog w')
    = Some
        (match fst call with
         | Api.Resolved result =>
             match TestConnectionResult.success result,
                   TestConnectionResult.error result with
             | true, _ => Dialog.mkOutcome true "Connection successful!"
             | false, Some e =>
                 Dialog.mkOutcome false
                   (if decide (e = "") then "Connection failed" else e)
             | false, None => Dialog.mkOutcome false "Connection failed"
             end
         | Api.Rejected (Api.ErrorInstance m) => Dialog.mkOutcome false m
         | Api.Rejected (Api.Structured _) =>
             Dialog.mkOutcome false "Connection test failed"
         end)
  ∧ Dialog.store w' = Dialog.store w
  ∧ Dialog.backend w' = snd call
  ∧ Dialog.saving (Dialog.dialog w') = Dialog.saving (Dialog.dialog w)
  ∧ Dialog.formData (Dialog.dialog w') = f.
Proof.
  intros f call w'. subst f call w'. unfold Dialog.handleTestConnection.
  destruct (Api.testConnection _ _) as [[[[] [e|]]|[m|e]] b1]; cbn;
    split_and!; reflexivity.
Qed.

(** The core, for its part, answers every test with a result. *)
Lemma core_testConnection_never_rejects (p : TestConnectionParams.t)
    (core : Core.State) :
  ∃ result, Api.testConnection p core = (Api.Resolved result, core).
Proof.
  unfold Api.testConnection, Api.invoke, Core.backend. cbn.
  unfold Core.testConnection. destruct (Core.probe _ _); eauto.
Qed.

(** ** Running a query *)

Lemma decodeCount_bound (n : option number) (lim : option nat) :
  Core.decodeCount n = Some lim →
  default Core.defaultRowLimit lim
  = match n with
    | Some (Int z) => Z.to_nat z
    | _ => Core.defaultRowLimit
    end.
Proof.
  destruct n as [[|z]|]; cbn; try (intros [= <-]; reflexivity).
  destruct (decide (0 ≤ z)%Z); intros [= <-]; reflexivity.
Qed.

Lemma decodeRequest_fields (p : ExecuteQueryParams.t)
    (req : Core.QueryRequest) :
  Core.decodeRequest p = Some req →
  Core.profileId req = ExecuteQueryParams.connectionId p
  ∧ Core.sql req = ExecuteQueryParams.sql p
  ∧ Core.decodeCount (ExecuteQueryParams.limit p) = Some (Core.rowLimit req).
Proof.
  unfold Core.decodeRequest.
  destruct (Core.decodeCount (ExecuteQueryParams.limit p)) as [lim|];
    [| discriminate].
  destruct (Core.decodeCount (ExecuteQueryParams.offset p)) as [off|];
    [| discriminate].
  by intros [= <-].
Qed.

(** Whatever the executor dispatches comes back cut at the row limit. *)
Lemma dispatch_bounded (req : Core.QueryRequest) (core core' : Core.State)
    (r : QueryResult.t) :
  Core.dispatch req core = (inr r, core') →
  length (QueryResult.rows r)
  ≤ default Core.defaultRowLimit (Core.rowLimit req)
  ∧ QueryResult.rowCount r = Int (Z.of_nat (length (QueryResult.rows r))).
Proof.
  unfold Core.dispatch. destruct (Core.answer _ _ _ _) as [e|a];
    [discriminate |].
  intros [= <- _]. cbn. split; [| reflexivity].
  rewrite length_take. lia.
Qed.

Lemma execute_bounded (req : Core.QueryRequest) (confirmed : bool)
    (core core' : Core.State) (r : QueryResult.t) :
  Core.execute req confirmed core = (inr r, core') →
  length (QueryResult.rows r)
  ≤ default Core.defaultRowLimit (Core.rowLimit req)
  ∧ QueryResult.rowCount r = Int (Z.of_nat (length (QueryResult.rows r))).
Proof.
  unfold Core.execute.
  destruct (SafetyGuard.classify _) as [|kind], confirmed;
    try apply dispatch_bounded.
  discriminate.
Qed.

(** A dispatched statement that the engine answers yields exactly the
    rows between the offset and the bound. *)
Lemma dispatch_returns (req : Core.QueryRequest) (core : Core.State)
    (a : Core.Answer) :
  Core.answer (Core.engine core) (Core.dispatched core)
              (Core.profileId req) (Core.sql req) = inr a →
  ∃ r core',
    Core.dispatch req core = (inr r, core')
    ∧ QueryResult.rows r
      = take (default Core.defaultRowLimit (Core.rowLimit req))
             (drop (Core.offset req) (Core.answerRows a))
    ∧ QueryResult.columns r = Core.answerColumns a.
Proof.
  intros Ha. unfold Core.dispatch. rewrite Ha. eauto.
Qed.

(** What the run button makes of the world, on a backend that records
    the commands it is sent: nothing, or one [execute_query] with limit
    100 and offset 0. *)
Lemma handleRunQuery_log {B : Type} {backend : Api.Backend B}
    (trim : string → string) (w : Editor.World (B * list Api.AnyCommand)) :
  let w' := Editor.handleRunQuery trim w in
  (w' = w)
  ∨ (∃ connectionId sql,
        snd (Editor.backend w')
        = snd (Editor.backend w) ++
            [Api.sent
               (Api.execute_query
                  (ExecuteQueryParams.mk connectionId sql (Some (Int 100))
                                         (Some (Int 0))))]
        ∧ trim sql ≠ ""
        ∧ Editor.isRunning (Editor.editor w') = false).
Proof.
  unfold Editor.handleRunQuery.
  destruct (Editor.activeTab _) as [tab|]; [| by left].
  destruct (Editor.activeConnection _) as [conn|]; [| by left].
  destruct (Editor.isRunning _); [by left |].
  destruct (decide (trim _ = "")) as [|Hsql]; [by left |].
  right. eexists _, _.
  cbv [Api.executeQuery Api.invoke Api.recording].
  destruct (backend _ _ _) as [settled b1]. cbn.
  split_and!; [reflexivity | exact Hsql | reflexivity].
Qed.

(** Through the command surface, the core answers with at most the
    requested rows, or at most the default bound. *)
Lemma core_executeQuery_bounded (p : ExecuteQueryParams.t)
    (core core' : Core.State) (r : QueryResult.t) :
  Api.executeQuery p core = (Api.Resolved r, core') →
  length (QueryResult.rows r)
  ≤ match ExecuteQueryParams.limit p with
    | Some (Int z) => Z.to_nat z
    | _ => 100
    end
  ∧ QueryResult.rowCount r = Int (Z.of_nat (length (QueryResult.rows r))).
Proof.
  intros Hrun. unfold Api.executeQuery, Api.invoke, Core.backend in Hrun.
  cbn in Hrun. unfold Core.executeQuery in Hrun.
  destruct (Core.decodeRequest p) as [req|] eqn:Hreq; [| discriminate].
  destruct (Core.execute req false core) as [[e|r0] core0] eqn:Hexec;
    [discriminate |].
  cbn in Hrun. injection Hrun as <- <-.
  apply execute_bounded in Hexec as [Hlen Hcount].
  apply decodeRequest_fields in Hreq as (_ & _ & Hlim).
  rewrite (decodeCount_bound _ _ Hlim) in Hlen.
  by split.
Qed.

(** What the run button makes of the world once its guards are passed:
    the tab is marked running, the request goes out, and the tab takes the
    result, or the empty result when the call is rejected. *)
Lemma handleRunQuery_runs {B : Type} {backend : Api.Backend B}
    (trim : string → string) (w : Editor.World B) (tab : QueryTab.t)
    (conn : Connection.t) (settled : Api.Settled QueryResult.t) (b1 : B) :
  let sql :=
    Dialog.orElse (Editor.editorValue (Editor.editor w)) (QueryTab.sql tab) in
  Editor.activeTab (Editor.store w) = Some tab →
  Editor.activeConnection (Editor.store w) = Some conn →
  Editor.isRunning (Editor.editor w) = false →
  trim sql ≠ "" →
  Api.executeQuery
    (ExecuteQueryParams.mk (Connection.id conn) sql (Some (Int 100))
                           (Some (Int 0)))
    (Editor.backend w) = (settled, b1) →
  Editor.handleRunQuery trim w
  = Editor.mkWorld
      (Store.updateQueryTab (QueryTab.id tab)
         (Editor.running false
            (Some (Some match settled with
                        | Api.Resolved result => result
                        | Api.Rejected _ => Editor.emptyResult
                        end)))
         (Store.updateQueryTab (QueryTab.id tab) (Editor.running true None)
                               (Editor.store w)))
      (Editor.mkState false (Editor.editorValue (Editor.editor w))) b1.
Proof.
  intros sql Htab Hconn Hrun Hsql Hcall. unfold Editor.handleRunQuery.
  rewrite Htab, Hconn, Hrun. fold sql. rewrite decide_False by done.
  unfold Editor.runRequest. rewrite Hcall. by destruct settled.
Qed.

(** On a backend that records what it is sent: behind its guards the
    run button sends exactly one [execute_query], for the active
    connection and the statement of the editor, with limit 100 and offset
    0; when a guard stops it, it changes nothing. *)
Lemma handleRunQuery_sends {B : Type} {backend : Api.Backend B}
    (trim : string → string) (w : Editor.World (B * list Api.AnyCommand)) :
  match Editor.activeTab (Editor.store w),
        Editor.activeConnection (Editor.store w),
        Editor.isRunning (Editor.editor w) with
  | Some tab, Some conn, false =>
      if decide (trim (Dialog.orElse (Editor.editorValue (Editor.editor w))
                                     (QueryTab.sql tab)) = "")
      then Editor.handleRunQuery trim w = w
      else snd (Editor.backend (Editor.handleRunQuery trim w))
           = snd (Editor.backend w) ++
               [Api.sent
                  (Api.execute_query
                     (ExecuteQueryParams.mk (Connection.id conn)
                        (Dialog.orElse (Editor.editorValue (Editor.editor w))
                                       (QueryTab.sql tab))
                        (Some (Int 100)) (Some (Int 0))))]
  | _, _, _ => Editor.handleRunQuery trim w = w
  end.
Proof.
  unfold Editor.handleRunQuery.
  destruct (Editor.activeTab (Editor.store w)) as [tab|]; [| reflexivity].
  destruct (Editor.activeConnection (Editor.store w)) as [conn|];
    [| reflexivity].
  destruct (Editor.isRunning (Editor.editor w)); [reflexivity |].
  destruct (decide (trim _ = "")) as [|Hsql]; [reflexivity |].
  cbv [Api.executeQuery Api.invoke Api.recording Editor.runRequest].
  by destruct (backend _ _ _) as [settled b1].
Qed.

(** C3. [executeQuery] returns at most the requested number of rows,
    and at most the default bound of 100 when the request has no limit.
    The run path of the query editor always submits a limit of 100:
    whenever a tab and a connection are active, no query is running and
    the statement is not blank, it sends exactly one [execute_query], for
    the active connection and the statement, with limit 100 and offset 0
    (and otherwise it sends nothing and changes nothing); with the core
    behind it, the result the tab then shows has at most 100 rows. *)
Theorem executeQuery_bounded_rows (p : ExecuteQueryParams.t)
    (core core' : Core.State) (r : QueryResult.t) :
  Api.executeQuery p core = (Api.Resolved r, core') →
  length (QueryResult.rows r)
  ≤ match ExecuteQueryParams.limit p with
    | Some (Int z) => Z.to_nat z
    | _ => 100
    end
  ∧ QueryResult.rowCount r = Int (Z.of_nat (length (QueryResult.rows r)))
  ∧ (∀ (B : Type) (backend : Api.Backend B) (trim : string → string)
       (w : Editor.World (B * list Api.AnyCommand)),
        match Editor.activeTab (Editor.store w),
              Editor.activeConnection (Editor.store w),
              Editor.isRunning (Editor.editor w) with
        | Some tab, Some conn, false =>
            if decide
                 (trim (Dialog.orElse (Editor.editorValue (Editor.editor w))
                                      (QueryTab.sql tab)) = "")
            then Editor.handleRunQuery trim w = w
            else snd (Editor.backend (Editor.handleRunQuery trim w))
                 = snd (Editor.backend w) ++
                     [Api.sent
                        (Api.execute_query
                           (ExecuteQueryParams.mk (Connection.id conn)
                              (Dialog.orElse
                                 (Editor.editorValue (Editor.editor w))
                                 (QueryTab.sql tab))
                              (Some (Int 100)) (Some (Int 0))))]
        | _, _, _ => Editor.handleRunQuery trim w = w
        end)
  ∧ (∀ (trim : string → string) (w : Editor.World Core.State)
       (tab : QueryTab.t) (conn : Connection.t) (i : nat) (t : QueryTab.t),
        Editor.activeTab (Editor.store w) = Some tab →
        Editor.activeConnection (Editor.store w) = Some conn →
        Editor.isRunning (Editor.editor w) = false →
        trim (Dialog.orElse (Editor.editorValue (Editor.editor w))
                            (QueryTab.sql tab)) ≠ "" →
        Store.queryTabs (Editor.store w) !! i = Some t →
        QueryTab.id t = QueryTab.id tab →
        ∃ shown,
          Store.queryTabs (Editor.store (Editor.handleRunQuery trim w)) !! i
          = Some (QueryTab.mk (QueryTab.id t) (QueryTab.connectionId t)
                    (QueryTab.title t) (QueryTab.sql t) (Some shown) false)
          ∧ length (QueryResult.rows shown) ≤ 100).
Proof.
  intros Hrun. destruct (core_executeQuery_bounded _ _ _ _ Hrun)
    as [Hlen Hcount].
  split_and!; [exact Hlen | exact Hcount | |].
  - intros B backend trim w. apply handleRunQuery_sends.
  - intros trim w tab conn i t Htab Hconn Hidle Hsql Hi Hid.
    destruct (Api.executeQuery
                (ExecuteQueryParams.mk (Connection.id conn)
                   (Dialog.orElse (Editor.editorValue (Editor.editor w))
                                  (QueryTab.sql tab))
                   (Some (Int 100)) (Some (Int 0)))
                (Editor.backend w)) as [settled b1] eqn:Hcall.
    rewrite (handleRunQuery_runs trim w tab conn settled b1
               Htab Hconn Hidle Hsql Hcall).
    exists (match settled with
            | Api.Resolved result => result
            | Api.Rejected _ => Editor.emptyResult
            end).
    split.
    + cbn. rewrite !list_lookup_fmap, Hi. cbn.
      destruct (decide (QueryTab.id t = QueryTab.id tab)); [| done].
      cbn. by rewrite decide_True.
    + destruct settled as [result|e]; [| cbn; lia].
      apply core_executeQuery_bounded in Hcall as [Hbound _].
      cbn in Hbound. lia.
Qed.

Lemma executeQuery_bounded_rows_witness :
  ∃ r core',
    Api.executeQuery
      (ExecuteQueryParams.mk "conn-0" "SELECT * FROM users" None None)
      Sample.coreWithLocal = (Api.Resolved r, core')
    ∧ length (QueryResult.rows r) ≤ 100.
Proof.
  destruct (Api.executeQuery
              (ExecuteQueryParams.mk "conn-0" "SELECT * FROM users" None None)
              Sample.coreWithLocal) as [[r|e] core'] eqn:Hrun.
  - exists r, core'. split; [reflexivity |].
    exact (proj1 (executeQuery_bounded_rows _ _ _ _ Hrun)).
  - exfalso. vm_compute in Hrun. discriminate Hrun.
Defined.

(** The engine of the sample holds 150 rows: 100 come back without a
    limit, 7 with a limit of 7. *)
Example executeQuery_default_bound_example :
  (match fst (Api.executeQuery
                (ExecuteQueryParams.mk "conn-0" "SELECT * FROM users" None
                                       None) Sample.coreWithLocal) with
   | Api.Resolved r => Some (length (QueryResult.rows r))
   | Api.Rejected _ => None
   end) = Some 100
  ∧ (match fst (Api.executeQuery
                  (ExecuteQueryParams.mk "conn-0" "SELECT * FROM users"
                                         (Some (Int 7)) None)
                  Sample.coreWithLocal) with
     | Api.Resolved r => Some (length (QueryResult.rows r))
     | Api.Rejected _ => None
     end) = Some 7.
Proof. split; vm_compute; reflexivity. Qed.

Example handleRunQuery_sends_limit_100 :
  snd (Editor.backend (Editor.handleRunQuery Builtins.trim Sample.editorWorld))
  = [Api.sent
               (Api.execute_query
          (ExecuteQueryParams.mk "conn-0" "SELECT * FROM users"
                                 (Some (Int 100)) (Some (Int 0))))].
Proof. vm_compute. reflexivity. Qed.

(** ** Destructive statements *)

(** Whatever the backend, a confirmation held by the caller cannot
    change what [executeQuery] does. *)
Lemma executeQuery_confirmation_irrelevant {B : Type} `{!Api.Backend B}
    (c1 c2 : bool) (p : ExecuteQueryParams.t) (b : B) :
  Api.executeQuery_confirmed c1 p b = Api.executeQuery_confirmed c2 p b.
Proof. reflexivity. Qed.

Example classify_examples :
  SafetyGuard.classify Sample.dropUsers
  = SafetyGuard.Destructive Errors.Drop
  ∧ SafetyGuard.classify "/* tidy */ truncate orders"
    = SafetyGuard.Destructive Errors.Truncate
  ∧ SafetyGuard.classify "DELETE FROM users"
    = SafetyGuard.Destructive Errors.DeleteWithoutWhere
  ∧ SafetyGuard.classify "DELETE FROM users WHERE id = 1" = SafetyGuard.Safe
  ∧ SafetyGuard.classify "UPDATE t SET note = 'where' "
    = SafetyGuard.Destructive Errors.UpdateWithoutWhere
  ∧ SafetyGuard.classify "SELECT * FROM users" = SafetyGuard.Safe.
Proof. split_and!; vm_compute; reflexivity. Qed.

(** C2, as stated, fails: there is no backend of [invoke] on which the
    [DROP TABLE] statement of the sample is refused with
    [ConfirmationRequired Drop] when sent unconfirmed and executed when
    sent confirmed, since [executeQuery] sends the same command in both
    cases. *)
Lemma executeQuery_confirmed_same_outcome :
  ¬ ∃ (B : Type) (backend : Api.Backend B) (b : B),
      fst (Api.executeQuery_confirmed false Sample.dropRequest b)
      = Api.Rejected
          (Api.Structured
             (Errors.OfQuery (Errors.ConfirmationRequired Errors.Drop)))
      ∧ ∃ r, fst (Api.executeQuery_confirmed true Sample.dropRequest b)
             = Api.Resolved r.
Proof.
  intros (B & backend & b & Hrefused & r & Hrun).
  rewrite (executeQuery_confirmation_irrelevant true false) in Hrun.
  congruence.
Qed.

(** On the core of the sample both calls are refused. *)
Example executeQuery_confirmed_refused_example :
  fst (Api.executeQuery_confirmed true Sample.dropRequest
                                  Sample.coreWithLocal)
  = Api.Rejected
      (Api.Structured
         (Errors.OfQuery (Errors.ConfirmationRequired Errors.Drop))).
Proof. vm_compute. reflexivity. Qed.

(** C2, amended. [executeQuery] takes the connection id, the statement
    and the optional limit and offset, and no confirmation: a
    confirmation held by the caller changes nothing. In the core, the
    Query Executor takes the flag: for every statement classified
    Destructive(kind), [execute] without confirmation fails with
    [ConfirmationRequired kind] and dispatches nothing, and [execute]
    with confirmation dispatches the statement to the engine. Sent
    through [executeQuery], which supplies no flag, such a statement is
    refused with [ConfirmationRequired kind]. *)
Theorem destructive_needs_confirmation (p : ExecuteQueryParams.t)
    (req : Core.QueryRequest) (kind : Errors.DestructiveKind)
    (core : Core.State) (confirmed : bool) :
  Core.decodeRequest p = Some req →
  SafetyGuard.classify (ExecuteQueryParams.sql p)
  = SafetyGuard.Destructive kind →
  Core.execute req false core
  = (inl (Errors.ConfirmationRequired kind), core)
  ∧ Core.execute req true core = Core.dispatch req core
  ∧ Core.dispatched (snd (Core.execute req true core))
    = Core.dispatched core ++
        [(ExecuteQueryParams.connectionId p, ExecuteQueryParams.sql p)]
  ∧ Api.executeQuery_confirmed confirmed p core
    = (Api.Rejected
         (Api.Structured
            (Errors.OfQuery (Errors.ConfirmationRequired kind))), core)
  ∧ Api.executeQuery_confirmed confirmed p core = Api.executeQuery p core.
Proof.
  intros Hreq Hclass.
  pose proof (decodeRequest_fields _ _ Hreq) as (Hid & Hsql & _).
  assert (Hfalse : Core.execute req false core
                   = (inl (Errors.ConfirmationRequired kind), core)).
  { unfold Core.execute. by rewrite Hsql, Hclass. }
  assert (Htrue : Core.execute req true core = Core.dispatch req core).
  { unfold Core.execute. by rewrite Hsql, Hclass. }
  split_and!; try done.
  - rewrite Htrue, <- Hid, <- Hsql. unfold Core.dispatch.
    by destruct (Core.answer _ _ _ _).
  - unfold Api.executeQuery_confirmed, Api.executeQuery, Api.invoke,
      Core.backend. cbn. unfold Core.executeQuery. by rewrite Hreq, Hfalse.
Qed.

Lemma destructive_needs_confirmation_witness :
  Api.executeQuery_confirmed true Sample.dropRequest Sample.coreWithLocal
  = (Api.Rejected
       (Api.Structured
          (Errors.OfQuery (Errors.ConfirmationRequired Errors.Drop))),
     Sample.coreWithLocal).
Proof.
  refine (proj1 (proj2 (proj2 (proj2
    (destructive_needs_confirmation Sample.dropRequest
       (Core.mkRequest "conn-0" Sample.dropUsers (Some 100) 0) Errors.Drop
       Sample.coreWithLocal true _ _))))).
  - reflexivity.
  - vm_compute. reflexivity.
Defined.

(** The run button has no confirmation path either: a refusal, like any
    other rejection, leaves the tab with the empty result. *)
Lemma handleRunQuery_rejected {B : Type} {backend : Api.Backend B}
    (trim : string → string) (w : Editor.World B) (tab : QueryTab.t)
    (conn : Connection.t) (e : Api.Thrown) (b1 : B) :
  Editor.activeTab (Editor.store w) = Some tab →
  Editor.activeConnection (Editor.store w) = Some conn →
  Editor.isRunning (Editor.editor w) = false →
  let sql :=
    Dialog.orElse (Editor.editorValue (Editor.editor w)) (QueryTab.sql tab) in
  trim sql ≠ "" →
  Api.executeQuery (Editor.runRequest (Connection.id conn) sql)
                   (Editor.backend w) = (Api.Rejected e, b1) →
  Editor.store (Editor.handleRunQuery trim w)
  = Store.updateQueryTab (QueryTab.id tab)
      (Editor.running false (Some (Some Editor.emptyResult)))
      (Store.updateQueryTab (QueryTab.id tab) (Editor.running true None)
                            (Editor.store w)).
Proof.
  intros Htab Hconn Hrun sql Hsql Hcall. unfold Editor.handleRunQuery.
  rewrite Htab, Hconn, Hrun. fold sql.
  rewrite decide_False by done. by rewrite Hcall.
Qed.

(** ** Table pages *)

(** C4, as stated, fails: no [GetTableDataParams] expresses the cursor
    [c1]; the only position the command takes is a numeric offset. *)
Lemma getTableData_takes_no_cursor :
  ¬ ∃ p : GetTableDataParams.t, Api.position p = Api.AtCursor "c1".
Proof. intros [p Hp]. discriminate Hp. Qed.

Lemma page_hasMore (columns : list ColumnInfo.t) (totalCount : number)
    (pageSize : nat) (batch : list (gmap string JsValue)) :
  TableDataResult.hasMore (Pager.page columns totalCount pageSize batch)
  = false
  ↔ length batch ≤ pageSize.
Proof.
  cbn. rewrite bool_decide_eq_false. lia.
Qed.

Lemma fetch_length (pageSize offset : nat)
    (scan : list (gmap string JsValue)) :
  length (Pager.fetch pageSize offset scan)
  = (pageSize + 1) `min` (length scan - offset).
Proof. unfold Pager.fetch. by rewrite length_take, length_drop. Qed.

(** C4, amended. [getTableData] takes the connection, the table, an
    optional schema, an optional limit and, as the position of the page,
    an optional numeric offset (no cursor); it answers with
    [{columns, rows, totalCount, hasMore}]. For every page the core
    fetches, [hasMore] is false exactly when the fetched batch has at most
    page-size rows; the page holds the first page-size rows of the batch,
    and [hasMore] is true exactly when the table has rows beyond the
    page. *)
Theorem getTableData_page (p : GetTableDataParams.t) (core : Core.State)
    (lim off : option nat) (t : Core.TableScan) :
  Core.decodeCount (GetTableDataParams.limit p) = Some lim →
  Core.decodeCount (GetTableDataParams.offset p) = Some off →
  Core.scan (Core.engine core) (Core.dispatched core)
            (GetTableDataParams.connectionId p) (GetTableDataParams.schema p)
            (GetTableDataParams.tableName p) = inr t →
  let pageSize := default Core.defaultRowLimit lim in
  let batch := Pager.fetch pageSize (default 0 off) (Core.scanRows t) in
  ∃ r,
    Api.getTableData p core = (Api.Resolved r, core)
    ∧ Api.position p = Api.AtOffset (GetTableDataParams.offset p)
    ∧ TableDataResult.columns r = Core.scanColumns t
    ∧ TableDataResult.rows r = take pageSize batch
    ∧ length (TableDataResult.rows r) ≤ pageSize
    ∧ TableDataResult.totalCount r = Core.scanCount t
    ∧ (TableDataResult.hasMore r = false ↔ length batch ≤ pageSize)
    ∧ (TableDataResult.hasMore r = true
       ↔ default 0 off + pageSize < length (Core.scanRows t)).
Proof.
  intros Hlim Hoff Hscan pageSize batch.
  eexists. split.
  { unfold Api.getTableData, Api.invoke, Core.backend. cbn.
    unfold Core.getTableData. rewrite Hlim, Hoff, Hscan. reflexivity. }
  fold pageSize batch. split_and!; try reflexivity.
  - cbn. rewrite length_take. lia.
  - apply page_hasMore.
  - cbn. rewrite bool_decide_eq_true. subst batch.
    rewrite fetch_length. lia.
Qed.

Lemma getTableData_page_witness :
  ∃ r,
    Api.getTableData
      (GetTableDataParams.mk "conn-0" "users" None (Some (Int 2))
                             (Some (Int 2)))
      Sample.coreWithLocal = (Api.Resolved r, Sample.coreWithLocal)
    ∧ length (TableDataResult.rows r) ≤ 2.
Proof.
  destruct (getTableData_page
              (GetTableDataParams.mk "conn-0" "users" None (Some (Int 2))
                                     (Some (Int 2)))
              Sample.coreWithLocal (Some 2) (Some 2)
              (Core.mkScan [Sample.idColumn] (Sample.row <$> seqZ 1 5)
                           (Int 5))
              eq_refl eq_refl eq_refl)
    as (r & Hr & _ & _ & _ & Hlen & _).
  exists r. split; [exact Hr | exact Hlen].
Defined.

(** Five rows in pages of two: more after the first and the second
    page, none after the third. *)
Example getTableData_three_pages :
  (λ off,
     match fst (Api.getTableData
                  (GetTableDataParams.mk "conn-0" "users" None
                     (Some (Int 2)) (Some (Int off)))
                  Sample.coreWithLocal) with
     | Api.Resolved r =>
         Some (length (TableDataResult.rows r), TableDataResult.hasMore r)
     | Api.Rejected _ => None
     end) <$> [0; 2; 4]%Z
  = [Some (2, true); Some (2, true); Some (1, false)].
Proof. vm_compute. reflexivity. Qed.

(** ** Saving the dialog *)

(** In the store, saving an edit changes the edited entry in place: it
    keeps its id, its connectivity status and its place in the list, and
    takes the fields of the form. *)
Lemma handleSave_edit_store {B : Type} {backend : Api.Backend B}
    (parseInt10 : string → number) (w : Dialog.World B)
    (c : Connection.t) :
  Dialog.editConnection (Dialog.dialog w) = Some c →
  let f := Dialog.formData (Dialog.dialog w) in
  Dialog.store (Dialog.handleSave parseInt10 w)
  = Store.updateConnection (Connection.id c)
      (Connection.mkPartial None (Some (FormData.name f))
         (Some (FormData.type f)) (Some (FormData.host f))
         (Some (parseInt10 (FormData.port f))) (Some (FormData.database f))
         (Some (FormData.username f)) None None)
      (Dialog.store w).
Proof.
  intros Hedit f. unfold Dialog.handleSave. rewrite Hedit. fold f.
  destruct (decide (FormData.password f = "")); [reflexivity |].
  by destruct (Api.createConnection _ _) as [[?|?] ?].
Qed.

(** With a password in the form, saving an edit sends the backend one
    command, [create_connection], whose payload is the form: the id of
    the edited connection is not part of it. *)
Lemma handleSave_edit_sends_create {B : Type} {backend : Api.Backend B}
    (parseInt10 : string → number)
    (w : Dialog.World (B * list Api.AnyCommand)) (c : Connection.t) :
  Dialog.editConnection (Dialog.dialog w) = Some c →
  FormData.password (Dialog.formData (Dialog.dialog w)) ≠ "" →
  snd (Dialog.backend (Dialog.handleSave parseInt10 w))
  = snd (Dialog.backend w) ++
      [Api.sent
         (Api.create_connection
            (Dialog.createParams parseInt10
               (Dialog.formData (Dialog.dialog w))))].
Proof.
  intros Hedit Hpw. unfold Dialog.handleSave. rewrite Hedit.
  rewrite decide_False by done.
  cbv [Api.createConnection Api.invoke Api.recording].
  by destruct (backend _ _ _) as [[?|?] ?].
Qed.

Lemma createConnection_fresh (p : CreateConnectionParams.t)
    (core : Core.State) :
  let id := Core.ids core (Core.drawn core) in
  id ∉ Profile.id <$> Core.profiles core →
  Api.createConnection p core
  = (Api.Resolved id,
     Core.mkState (Core.profiles core ++ [Core.profileOf id p])
       (<[id := CreateConnectionParams.password p]> (Core.vault core))
       (Core.pools core) (Core.dispatched core) (Core.ids core)
       (S (Core.drawn core)) (Core.engine core)).
Proof.
  intros id Hfresh.
  unfold Api.createConnection, Api.invoke, Core.backend. cbn.
  unfold Core.createConnection. fold id. by rewrite decide_False.
Qed.

(** C6 fails on the secret. Saving an edit of a stored connection with a
    new password keeps the store entry's id and applies the edited
    fields, but the secret kept for that id is left as it was: the
    handler sends [createConnection], so the core draws a new id, adds a
    second profile to the registry and puts the new password under the
    new id. *)
Theorem handleSave_edit_password_creates_profile
    (parseInt10 : string → number) (w : Dialog.World Core.State)
    (c : Connection.t) :
  let f := Dialog.formData (Dialog.dialog w) in
  let core := Dialog.backend w in
  let newId := Core.ids core (Core.drawn core) in
  let w' := Dialog.handleSave parseInt10 w in
  Dialog.editConnection (Dialog.dialog w) = Some c →
  FormData.password f ≠ "" →
  Connection.id c ∈ Profile.id <$> Core.profiles core →
  newId ∉ Profile.id <$> Core.profiles core →
  newId ≠ Connection.id c
  ∧ Core.vault (Dialog.backend w') !! Connection.id c
    = Core.vault core !! Connection.id c
  ∧ Core.vault (Dialog.backend w') !! newId = Some (FormData.password f)
  ∧ Core.profiles (Dialog.backend w')
    = Core.profiles core ++
        [Core.profileOf newId (Dialog.createParams parseInt10 f)]
  ∧ (∀ i c0, Store.connections (Dialog.store w) !! i = Some c0 →
             Connection.id c0 = Connection.id c →
             Store.connections (Dialog.store w') !! i
             = Some (Connection.mk (Connection.id c0) (FormData.name f)
                       (FormData.type f) (FormData.host f)
                       (parseInt10 (FormData.port f)) (FormData.database f)
                       (FormData.username f) (Connection.isConnected c0)
                       (Connection.lastConnected c0)))
  ∧ Dialog.open (Dialog.dialog w') = false.
Proof.
  intros f core newId w' Hedit Hpw Hstored Hfresh.
  assert (Hne : newId ≠ Connection.id c)
    by (intros He; by rewrite He in Hfresh).
  pose proof (createConnection_fresh (Dialog.createParams parseInt10 f) core
                Hfresh) as Hcreate.
  assert (Hback : Dialog.backend w'
                  = snd (Api.createConnection
                           (Dialog.createParams parseInt10 f) core)
                  ∧ Dialog.open (Dialog.dialog w') = false).
  { subst w'. unfold Dialog.handleSave. rewrite Hedit. fold f core.
    rewrite decide_False by done. by rewrite Hcreate. }
  destruct Hback as [Hback Hopen]. rewrite Hcreate in Hback. cbn in Hback.
  split_and!; try done.
  - rewrite Hback. cbn. by rewrite lookup_insert_ne.
  - rewrite Hback. cbn. by rewrite lookup_insert_eq.
  - by rewrite Hback.
  - intros i c0 Hi Hid. subst w'.
    rewrite (handleSave_edit_store parseInt10 w c Hedit).
    by rewrite (updateConnection_lookup_same _ _ _ _ _ Hi Hid).
Qed.

Lemma handleSave_edit_password_creates_profile_witness :
  Core.vault (Dialog.backend
                (Dialog.handleSave Builtins.parseInt10 Sample.editWorld))
    !! "conn-0"
  = Core.vault Sample.coreWithLocal !! "conn-0"
  ∧ Core.vault Sample.coreWithLocal !! "conn-0" = Some "old secret".
Proof.
  split; [| reflexivity].
  refine (proj1 (proj2
    (handleSave_edit_password_creates_profile Builtins.parseInt10
       Sample.editWorld Sample.storedLocal eq_refl _ _ _))).
  - discriminate.
  - vm_compute. apply list_elem_of_here.
  - vm_compute. intros Hin. apply list_elem_of_singleton in Hin.
    discriminate Hin.
Defined.

(** The failing save, run: the old secret is still under [conn-0], the
    new one is under [conn-1], and the registry lists two profiles. *)
Example handleSave_edit_password_example :
  let core' :=
    Dialog.backend (Dialog.handleSave Builtins.parseInt10 Sample.editWorld) in
  Core.vaultRetrieve "conn-0" (Core.vault core') = inr "old secret"
  ∧ Core.vaultRetrieve "conn-1" (Core.vault core') = inr "new secret"
  ∧ Profile.id <$> Core.listProfiles core' = ["conn-0"; "conn-1"]
  ∧ Connection.id
      <$> Store.connections
            (Dialog.store
               (Dialog.handleSave Builtins.parseInt10 Sample.editWorld))
    = ["conn-0"].
Proof. vm_compute. split_and!; reflexivity. Qed.

(** Creating a connection, for comparison, keeps the id the core
    returns: the secret and the store entry share it. *)
Lemma handleSave_new_connection (parseInt10 : string → number)
    (w : Dialog.World Core.State) :
  let f := Dialog.formData (Dialog.dialog w) in
  let core := Dialog.backend w in
  let newId := Core.ids core (Core.drawn core) in
  let w' := Dialog.handleSave parseInt10 w in
  Dialog.editConnection (Dialog.dialog w) = None →
  newId ∉ Profile.id <$> Core.profiles core →
  Core.vault (Dialog.backend w') !! newId = Some (FormData.password f)
  ∧ Store.connections (Dialog.store w')
    = Store.connections (Dialog.store w) ++
        [Connection.mk newId (FormData.name f) (FormData.type f)
           (FormData.host f) (parseInt10 (FormData.port f))
           (FormData.database f) (FormData.username f) false None].
Proof.
  intros f core newId w' Hnew Hfresh. subst w'.
  unfold Dialog.handleSave. rewrite Hnew. fold f core.
  rewrite (createConnection_fresh _ core Hfresh). cbn.
  split; [by rewrite lookup_insert_eq | reflexivity].
Qed.

(** * Further properties of the store *)

Section StoreLists.
Context {A : Type}.

Lemma fmap_guard_id (P : A → Prop) `{∀ x, Decision (P x)} (f : A → A)
    (l : list A) :
  Forall (λ x, ¬ P x) l → (λ x, if decide (P x) then f x else x) <$> l = l.
Proof.
  induction 1 as [|x l Hx _ IH]; [reflexivity |].
  cbn. rewrite decide_False by done. by f_equal.
Qed.

Lemma filter_all (P : A → Prop) `{∀ x, Decision (P x)} (l : list A) :
  Forall P l → filter P l = l.
Proof.
  induction 1 as [|x l Hx _ IH]; [reflexivity |].
  rewrite filter_cons, decide_True by done. by f_equal.
Qed.

Lemma filter_comm (P Q : A → Prop) `{∀ x, Decision (P x)}
    `{∀ x, Decision (Q x)} (l : list A) :
  filter P (filter Q l) = filter Q (filter P l).
Proof.
  induction l as [|x l IH]; [reflexivity |].
  rewrite !filter_cons.
  destruct (decide (Q x)), (decide (P x));
    rewrite ?filter_cons, ?decide_True, ?decide_False by done;
    by rewrite IH.
Qed.

Lemma filter_idemp (P : A → Prop) `{∀ x, Decision (P x)} (l : list A) :
  filter P (filter P l) = filter P l.
Proof.
  apply filter_all, Forall_forall. intros x Hx.
  by apply list_elem_of_filter in Hx as [? _].
Qed.

(** With distinct keys, two elements with the same key are the same. *)
Lemma NoDup_fmap_same_key {K : Type} (key : A → K) (l : list A) (x y : A) :
  NoDup (key <$> l) → x ∈ l → y ∈ l → key x = key y → x = y.
Proof.
  intros Hnd Hx Hy Hkey.
  apply list_elem_of_lookup in Hx as [i Hi].
  apply list_elem_of_lookup in Hy as [j Hj].
  assert (i = j) as ->.
  { apply (NoDup_lookup (key <$> l) i j (key x)); [done | |].
    - by rewrite list_lookup_fmap, Hi.
    - by rewrite list_lookup_fmap, Hj, Hkey. }
  congruence.
Qed.

Lemma NoDup_fmap_filter {K : Type} (key : A → K) (P : A → Prop)
    `{∀ x, Decision (P x)} (l : list A) :
  NoDup (key <$> l) → NoDup (key <$> filter P l).
Proof.
  intros Hnd. apply (sublist_NoDup (key <$> filter P l) (key <$> l));
    first [exact Hnd | apply fmap_sublist, sublist_filter].
Qed.

End StoreLists.

Lemma store_eta (s : Store.ConnectionStore) :
  Store.mk (Store.connections s) (Store.activeConnectionId s)
           (Store.queryTabs s) (Store.activeTabId s) (Store.tables s)
           (Store.sidebarWidth s) (Store.theme s) = s.
Proof. by destruct s. Qed.

Lemma not_in_connectionIds (s : Store.ConnectionStore) (id : string) :
  id ∉ Store.connectionIds s →
  Forall (λ c, ¬ Connection.id c = id) (Store.connections s).
Proof.
  intros Hid. apply Forall_forall. intros c Hc He. apply Hid.
  unfold Store.connectionIds. apply list_elem_of_fmap. by exists c.
Qed.

Lemma not_in_tabIds (s : Store.ConnectionStore) (id : string) :
  id ∉ Store.tabIds s →
  Forall (λ t, ¬ QueryTab.id t = id) (Store.queryTabs s).
Proof.
  intros Hid. apply Forall_forall. intros t Ht He. apply Hid.
  unfold Store.tabIds. apply list_elem_of_fmap. by exists t.
Qed.

(** X1. Updating a connection, setting the status of a connection or
    updating a tab under an id that no entry has leaves the whole store
    as it was. *)
Theorem update_unknown_id_is_noop (s : Store.ConnectionStore)
    (id tabId now : string) (uc : Connection.partial)
    (ut : QueryTab.partial) (isConnected : bool) :
  id ∉ Store.connectionIds s →
  tabId ∉ Store.tabIds s →
  Store.updateConnection id uc s = s
  ∧ Store.setConnectionStatus now id isConnected s = s
  ∧ Store.updateQueryTab tabId ut s = s.
Proof.
  intros Hid%not_in_connectionIds Htab%not_in_tabIds.
  unfold Store.updateConnection, Store.setConnectionStatus,
    Store.updateQueryTab, Store.set_connections, Store.set_queryTabs.
  rewrite (fmap_guard_id (λ c, Connection.id c = id)) by done.
  rewrite (fmap_guard_id (λ c, Connection.id c = id)
             (λ c, Connection.spread c _)) by done.
  rewrite (fmap_guard_id (λ t, QueryTab.id t = tabId)) by done.
  by rewrite store_eta.
Qed.

Lemma update_unknown_id_is_noop_witness :
  Store.updateConnection "c9"
    (Connection.mkPartial None (Some "Renamed") None None None None None
                          None None) Sample.twoConnections
  = Sample.twoConnections.
Proof.
  refine (proj1 (update_unknown_id_is_noop Sample.twoConnections "c9" "t9"
                   "" _ QueryTab.noUpdates false _ _)).
  - vm_compute. intros Hin. repeat (apply elem_of_cons in Hin as [Hin|Hin];
      [discriminate Hin |]). by apply elem_of_nil in Hin.
  - vm_compute. intros Hin. repeat (apply elem_of_cons in Hin as [Hin|Hin];
      [discriminate Hin |]). by apply elem_of_nil in Hin.
Defined.

(** X2. Removing a connection that is not in the list, that no tab
    belongs to and that is not the active one changes nothing; so does
    closing a tab id that no tab has and that is not the active one. *)
Theorem remove_unknown_id_is_noop (s : Store.ConnectionStore)
    (id tabId : string) :
  id ∉ Store.connectionIds s →
  Forall (λ t, QueryTab.connectionId t ≠ id) (Store.queryTabs s) →
  Store.activeConnectionId s ≠ Some id →
  tabId ∉ Store.tabIds s →
  Store.activeTabId s ≠ Some tabId →
  Store.removeConnection id s = s ∧ Store.removeQueryTab tabId s = s.
Proof.
  intros Hid%not_in_connectionIds Htabs Hactive Htab%not_in_tabIds Hat.
  unfold Store.removeConnection, Store.removeQueryTab,
    Store.set_connections, Store.set_queryTabs,
    Store.set_activeConnectionId, Store.set_activeTabId. cbn.
  rewrite (filter_all (λ c, Connection.id c ≠ id)) by done.
  rewrite (filter_all (λ t, QueryTab.connectionId t ≠ id)) by done.
  rewrite (filter_all (λ t, QueryTab.id t ≠ tabId)) by done.
  rewrite decide_False by done. rewrite bool_decide_eq_false_2 by done.
  by rewrite store_eta.
Qed.

Lemma remove_unknown_id_is_noop_witness :
  Store.removeConnection "c9" Sample.twoConnections = Sample.twoConnections
  ∧ Store.removeQueryTab "t9" Sample.twoConnections = Sample.twoConnections.
Proof.
  apply (remove_unknown_id_is_noop Sample.twoConnections "c9" "t9").
  - vm_compute. intros Hin. repeat (apply elem_of_cons in Hin as [Hin|Hin];
      [discriminate Hin |]). by apply elem_of_nil in Hin.
  - vm_compute. repeat (constructor; [discriminate |]). constructor.
  - discriminate.
  - vm_compute. intros Hin. repeat (apply elem_of_cons in Hin as [Hin|Hin];
      [discriminate Hin |]). by apply elem_of_nil in Hin.
  - discriminate.
Defined.

(** X3. Adding a connection under an unused id and removing it again
    gives the store back, when no tab claims that id and it is not the
    active connection. *)
Theorem addConnection_removeConnection (s : Store.ConnectionStore)
    (c : Connection.t) :
  Connection.id c ∉ Store.connectionIds s →
  Forall (λ t, QueryTab.connectionId t ≠ Connection.id c)
         (Store.queryTabs s) →
  Store.activeConnectionId s ≠ Some (Connection.id c) →
  Store.removeConnection (Connection.id c) (Store.addConnection c s) = s.
Proof.
  intros Hid%not_in_connectionIds Htabs Hactive.
  unfold Store.removeConnection, Store.addConnection,
    Store.set_connections, Store.set_queryTabs,
    Store.set_activeConnectionId. cbn.
  rewrite filter_app, (filter_all (λ c0, Connection.id c0 ≠ _)) by done.
  rewrite filter_cons, decide_False by (intros Hne; by apply Hne).
  rewrite filter_nil, app_nil_r.
  rewrite (filter_all (λ t, QueryTab.connectionId t ≠ _)) by done.
  rewrite decide_False by done. by rewrite store_eta.
Qed.

Lemma addConnection_removeConnection_witness :
  Store.removeConnection "c2"
    (Store.addConnection Sample.staging
       (Store.addConnection Sample.local Store.initial))
  = Store.addConnection Sample.local Store.initial.
Proof.
  apply (addConnection_removeConnection
           (Store.addConnection Sample.local Store.initial) Sample.staging).
  - vm_compute. intros Hin. repeat (apply elem_of_cons in Hin as [Hin|Hin];
      [discriminate Hin |]). by apply elem_of_nil in Hin.
  - constructor.
  - discriminate.
Defined.

(** X4. Opening a tab under an unused id and closing it again gives the
    tab list back, but not the active tab: the active tab is then the
    last tab of the list, whichever tab was active before. *)
Theorem addQueryTab_removeQueryTab (s : Store.ConnectionStore)
    (newTabId connectionId : string) :
  newTabId ∉ Store.tabIds s →
  let s' :=
    Store.removeQueryTab newTabId
      (Store.addQueryTab newTabId connectionId s) in
  Store.queryTabs s' = Store.queryTabs s
  ∧ Store.activeTabId s' = QueryTab.id <$> last (Store.queryTabs s)
  ∧ Store.connections s' = Store.connections s
  ∧ Store.activeConnectionId s' = Store.activeConnectionId s
  ∧ Store.tables s' = Store.tables s.
Proof.
  intros Htab%not_in_tabIds s'. subst s'.
  assert (Hfilter :
    filter (λ t, QueryTab.id t ≠ newTabId)
      (Store.queryTabs (Store.addQueryTab newTabId connectionId s))
    = Store.queryTabs s).
  { cbn -[Store.decimal]. rewrite filter_app, filter_all by done.
    rewrite filter_cons, decide_False by (intros Hne; by apply Hne).
    by rewrite filter_nil, app_nil_r. }
  unfold Store.removeQueryTab. rewrite Hfilter.
  cbn -[Store.decimal]. rewrite bool_decide_eq_true_2 by done.
  split_and!; reflexivity.
Qed.

Lemma addQueryTab_removeQueryTab_witness :
  Store.activeTabId
    (Store.removeQueryTab "t4"
       (Store.addQueryTab "t4" "c2"
          (Store.setActiveTab (Some "t1") Sample.twoConnections)))
  = Some "t3".
Proof.
  refine (proj1 (proj2
    (addQueryTab_removeQueryTab
       (Store.setActiveTab (Some "t1") Sample.twoConnections) "t4" "c2" _))).
  vm_compute. intros Hin. repeat (apply elem_of_cons in Hin as [Hin|Hin];
    [discriminate Hin |]). by apply elem_of_nil in Hin.
Defined.

(** ** Identifiers stay distinct *)

Lemma connectionIds_guarded (f : Connection.t → Connection.t) (id : string)
    (cs : list Connection.t) :
  (∀ c, Connection.id (f c) = Connection.id c) →
  Connection.id
    <$> ((λ c, if decide (Connection.id c = id) then f c else c) <$> cs)
  = Connection.id <$> cs.
Proof.
  intros Hf. rewrite <- list_fmap_compose. apply list_fmap_ext.
  intros i c _. cbn. by destruct (decide _).
Qed.

Lemma tabIds_guarded (f : QueryTab.t → QueryTab.t) (id : string)
    (ts : list QueryTab.t) :
  (∀ t, QueryTab.id (f t) = QueryTab.id t) →
  QueryTab.id
    <$> ((λ t, if decide (QueryTab.id t = id) then f t else t) <$> ts)
  = QueryTab.id <$> ts.
Proof.
  intros Hf. rewrite <- list_fmap_compose. apply list_fmap_ext.
  intros i t _. cbn. by destruct (decide _).
Qed.

Lemma NoDup_snoc_fresh (l : list string) (x : string) :
  NoDup l → x ∉ l → NoDup (l ++ [x]).
Proof.
  intros Hnd Hx. apply NoDup_app. split_and!; [done | | apply NoDup_singleton].
  intros y Hy Hyx. apply list_elem_of_singleton in Hyx. by subst y.
Qed.

Lemma step_keeps_ids_distinct (a : Store.Action) (s : Store.ConnectionStore) :
  Store.keepsIdsDistinct a s →
  NoDup (Store.connectionIds s) → NoDup (Store.tabIds s) →
  NoDup (Store.connectionIds (Store.step a s))
  ∧ NoDup (Store.tabIds (Store.step a s)).
Proof.
  unfold Store.connectionIds, Store.tabIds.
  destruct a as [c|id u|id|id|now id b|newTabId cid|id u|id|id|ts|w|th];
    cbn -[Store.decimal]; intros Hcall Hconns Htabs; try (split; done).
  - split; [| done]. rewrite fmap_app. by apply NoDup_snoc_fresh.
  - split; [| done]. rewrite connectionIds_guarded; [done |].
    intros c. unfold Connection.spread. cbn. by rewrite Hcall.
  - split; by apply NoDup_fmap_filter.
  - split; [| done]. by rewrite connectionIds_guarded.
  - split; [done |]. rewrite fmap_app. by apply NoDup_snoc_fresh.
  - split; [done |]. rewrite tabIds_guarded; [done |].
    intros t. unfold QueryTab.spread. cbn. by rewrite Hcall.
  - split; [done |]. by apply NoDup_fmap_filter.
Qed.

(** X5. As long as connections and tabs are added under ids that are
    not in use and updates do not overwrite an id, no two connections
    share an id and no two tabs share an id, in every state the store
    goes through. *)
Theorem ids_stay_distinct (s : Store.ConnectionStore) :
  Store.reachableDistinct s →
  NoDup (Store.connectionIds s) ∧ NoDup (Store.tabIds s).
Proof.
  induction 1 as [|a s _ [Hconns Htabs] Hcall].
  - split; apply NoDup_nil_2.
  - by apply step_keeps_ids_distinct.
Qed.

Lemma ids_stay_distinct_witness :
  NoDup (Store.tabIds
           (Store.addQueryTab "t1" "c1"
              (Store.addConnection Sample.local Store.initial))).
Proof.
  refine (proj2 (ids_stay_distinct _
    (Store.reachableDistinct_step (Store.AddQueryTab "t1" "c1") _
       (Store.reachableDistinct_step (Store.AddConnection Sample.local) _
          Store.reachableDistinct_initial _) _))).
  - cbn. apply not_elem_of_nil.
  - cbn. apply not_elem_of_nil.
Defined.

(** X6. With distinct tab ids, closing a tab that is there removes
    exactly one tab. *)
Theorem removeQueryTab_removes_one (s : Store.ConnectionStore)
    (id : string) :
  NoDup (Store.tabIds s) →
  id ∈ Store.tabIds s →
  S (length (Store.queryTabs (Store.removeQueryTab id s)))
  = length (Store.queryTabs s)
  ∧ id ∉ Store.tabIds (Store.removeQueryTab id s).
Proof.
  intros Hnd Hin. split.
  - cbn. unfold Store.tabIds in *. revert Hnd Hin.
    induction (Store.queryTabs s) as [|t tabs IH]; intros Hnd Hin.
    + by apply elem_of_nil in Hin.
    + rewrite fmap_cons in Hnd, Hin.
      apply NoDup_cons in Hnd as [Hnotin Hnd]. rewrite filter_cons.
      destruct (decide (QueryTab.id t ≠ id)) as [Hne|He].
      * cbn. f_equal. apply IH; [done |].
        by apply elem_of_cons in Hin as [->|Hin].
      * apply dec_stable in He. subst id. cbn. f_equal.
        rewrite filter_all; [done |]. apply Forall_forall.
        intros t' Ht' He. apply Hnotin, list_elem_of_fmap. by exists t'.
  - unfold Store.tabIds. cbn. intros Hgone.
    apply list_elem_of_fmap in Hgone as (t & Hid & Ht).
    apply list_elem_of_filter in Ht as [Hne _]. by apply Hne.
Qed.

Lemma removeQueryTab_removes_one_witness :
  S (length (Store.queryTabs
               (Store.removeQueryTab "t2" Sample.twoConnections)))
  = length (Store.queryTabs Sample.twoConnections).
Proof.
  refine (proj1 (removeQueryTab_removes_one Sample.twoConnections "t2" _ _)).
  - vm_compute. repeat (apply NoDup_cons; split;
      [intros Hin; repeat (apply elem_of_cons in Hin as [Hin|Hin];
         [discriminate Hin |]); by apply elem_of_nil in Hin |]).
    apply NoDup_nil_2.
  - vm_compute. apply list_elem_of_further, list_elem_of_here.
Defined.

(** ** The active tab *)

Lemma activeTab_Some (s : Store.ConnectionStore) (t : QueryTab.t) :
  Editor.activeTab s = Some t →
  Store.activeTabId s = Some (QueryTab.id t) ∧ t ∈ Store.queryTabs s.
Proof.
  unfold Editor.activeTab. intros Hfind.
  destruct (list_find _ _) as [[i t']|] eqn:Hlf; [| discriminate].
  cbn in Hfind. injection Hfind as ->.
  apply list_find_Some in Hlf as (Hi & Hact & _).
  split; [done |]. apply list_elem_of_lookup. by exists i.
Qed.

Lemma activeTab_None (s : Store.ConnectionStore) :
  Editor.activeTab s = None
  ↔ Forall (λ t, Store.activeTabId s ≠ Some (QueryTab.id t))
           (Store.queryTabs s).
Proof.
  unfold Editor.activeTab. rewrite fmap_None. apply list_find_None.
Qed.

(** X7. Removing a connection does not reset the active tab: when the
    active tab belongs to the removed connection (tab ids being
    distinct), [activeTabId] still names it afterwards although the tab
    is gone, so that no tab is active any more. *)
Theorem removeConnection_leaves_activeTabId (s : Store.ConnectionStore)
    (id : string) (t : QueryTab.t) :
  NoDup (Store.tabIds s) →
  Editor.activeTab s = Some t →
  QueryTab.connectionId t = id →
  let s' := Store.removeConnection id s in
  Store.activeTabId s' = Some (QueryTab.id t)
  ∧ (QueryTab.id t ∉ Store.tabIds s')
  ∧ Editor.activeTab s' = None
  ∧ ¬ Store.activeTabValid s'.
Proof.
  intros Hnd [Hact Hin]%activeTab_Some Hconn s'.
  assert (Hgone : QueryTab.id t ∉ Store.tabIds s').
  { unfold Store.tabIds. subst s'. cbn. intros Hgone.
    apply list_elem_of_fmap in Hgone as (t' & Hid & Ht').
    apply list_elem_of_filter in Ht' as [Hne Ht'].
    assert (t' = t) as ->
      by (apply (NoDup_fmap_same_key QueryTab.id (Store.queryTabs s));
          done).
    by apply Hne. }
  split_and!; try done.
  - apply activeTab_None, Forall_forall. intros t' Ht' He.
    apply Hgone. unfold Store.tabIds. apply list_elem_of_fmap.
    exists t'. split; [| done]. subst s'. cbn in He. congruence.
  - unfold Store.activeTabValid. subst s'. cbn. by rewrite Hact.
Qed.

Lemma removeConnection_leaves_activeTabId_witness :
  Store.activeTabId (Store.removeConnection "c1" Sample.twoConnections)
  = Some "t3"
  ∧ Editor.activeTab (Store.removeConnection "c1" Sample.twoConnections)
    = None.
Proof.
  destruct (removeConnection_leaves_activeTabId Sample.twoConnections "c1"
              (QueryTab.mk "t3" "c1" "Query 2" "" None false))
    as (Hid & _ & Hnone & _).
  - vm_compute. repeat (apply NoDup_cons; split;
      [intros Hin; repeat (apply elem_of_cons in Hin as [Hin|Hin];
         [discriminate Hin |]); by apply elem_of_nil in Hin |]).
    apply NoDup_nil_2.
  - reflexivity.
  - reflexivity.
  - split; [exact Hid | exact Hnone].
Defined.

(** X8. Opening and closing tabs keeps [activeTabId] sound. After
    [addQueryTab], from any state, [activeTabId] is the id of the new tab
    and that tab is in the list. [removeQueryTab] leaves no tab with the
    removed id; when [activeTabId] was null or named a tab that is there,
    it is so afterwards and is not the removed id; and closing the tab
    that [activeTabId] names makes it sound whatever it was before. *)
Theorem tab_actions_keep_activeTabId_valid (s : Store.ConnectionStore)
    (id newTabId connectionId : string) :
  let closed := Store.removeQueryTab id s in
  let opened := Store.addQueryTab newTabId connectionId s in
  (Store.activeTabId opened = Some newTabId
   ∧ newTabId ∈ Store.tabIds opened
   ∧ Store.activeTabValid opened)
  ∧ (id ∉ Store.tabIds closed)
  ∧ (Store.activeTabValid s →
     Store.activeTabValid closed ∧ Store.activeTabId closed ≠ Some id)
  ∧ (Store.activeTabId s = Some id →
     Store.activeTabValid closed ∧ Store.activeTabId closed ≠ Some id).
Proof.
  intros closed opened.
  assert (Hopened : newTabId ∈ Store.tabIds opened).
  { unfold Store.tabIds. subst opened. cbn -[Store.decimal].
    rewrite fmap_app. apply elem_of_app. right. apply list_elem_of_here. }
  assert (Hgone : id ∉ Store.tabIds closed).
  { unfold Store.tabIds. subst closed. cbn. intros Hin.
    apply list_elem_of_fmap in Hin as (t & Hid & Ht).
    apply list_elem_of_filter in Ht as [Hne _]. by apply Hne. }
  assert (Hreselect : Store.activeTabId s = Some id →
                      Store.activeTabValid closed).
  { intros He. unfold Store.activeTabValid, Store.tabIds. subst closed.
    cbn. rewrite bool_decide_eq_true_2 by done.
    destruct (last _) as [t|] eqn:Hlast; [| done]. cbn.
    apply list_elem_of_fmap. exists t. split; [done |].
    apply last_Some in Hlast as [l' ->]. apply elem_of_app. right.
    apply list_elem_of_here. }
  assert (Hkeep : Store.activeTabValid s → Store.activeTabValid closed).
  { intros Hvalid.
    destruct (decide (Store.activeTabId s = Some id)) as [He|Hne];
      [by apply Hreselect |].
    unfold Store.activeTabValid, Store.tabIds in *. subst closed. cbn.
    rewrite bool_decide_eq_false_2 by done.
    destruct (Store.activeTabId s) as [a|]; [| done].
    apply list_elem_of_fmap in Hvalid as (t & -> & Ht).
    apply list_elem_of_fmap. exists t. split; [done |].
    apply list_elem_of_filter. split; [congruence | done]. }
  assert (Hnot : Store.activeTabValid closed →
                 Store.activeTabId closed ≠ Some id).
  { unfold Store.activeTabValid. intros Hvalid He. rewrite He in Hvalid.
    by apply Hgone. }
  split; [split_and! | split; [exact Hgone | split]].
  - reflexivity.
  - exact Hopened.
  - unfold Store.activeTabValid.
    change (Store.activeTabId opened) with (Some newTabId). exact Hopened.
  - intros Hvalid. split; [by apply Hkeep | by apply Hnot, Hkeep].
  - intros He. split; [by apply Hreselect | by apply Hnot, Hreselect].
Qed.

Lemma tab_actions_keep_activeTabId_valid_witness :
  Store.activeTabValid (Store.removeQueryTab "t3" Sample.twoConnections)
  ∧ Store.activeTabId (Store.removeQueryTab "t3" Sample.twoConnections)
    ≠ Some "t3".
Proof.
  refine (proj1 (proj2 (proj2
    (tab_actions_keep_activeTabId_valid Sample.twoConnections "t3" "t4"
                                        "c1"))) _).
  vm_compute. do 2 apply list_elem_of_further. apply list_elem_of_here.
Defined.

(** ** Connection status and persistence *)

(** X9. A disconnect keeps the time stamp of the last connect: after
    connecting at [now1] and disconnecting at [now2], a connection with
    the given id is offline and its [lastConnected] is [now1]; every
    other field, and every other connection, is as before. *)
Theorem disconnect_keeps_lastConnected (s : Store.ConnectionStore)
    (id now1 now2 : string) (i : nat) (c : Connection.t) :
  Store.connections s !! i = Some c →
  let s' :=
    Store.setConnectionStatus now2 id false
      (Store.setConnectionStatus now1 id true s) in
  Store.connections s' !! i
  = Some (if decide (Connection.id c = id)
          then Connection.mk (Connection.id c) (Connection.name c)
                 (Connection.type c) (Connection.host c)
                 (Connection.port c) (Connection.database c)
                 (Connection.username c) false (Some now1)
          else c).
Proof.
  intros Hi s'. subst s'. cbn. rewrite !list_lookup_fmap, Hi. cbn.
  destruct (decide (Connection.id c = id)) as [He|Hne]; cbn.
  - by rewrite decide_True.
  - by rewrite decide_False.
Qed.

Lemma disconnect_keeps_lastConnected_witness :
  Connection.lastConnected
    <$> Store.connections
          (Store.setConnectionStatus "2025-01-02T00:00:00.000Z" "c1" false
             Sample.connectedOnce) !! 0
  = Some (Some "2025-01-01T00:00:00.000Z").
Proof.
  pose proof (disconnect_keeps_lastConnected
                (Store.addConnection Sample.local Store.initial) "c1"
                "2025-01-01T00:00:00.000Z" "2025-01-02T00:00:00.000Z" 0
                Sample.local eq_refl) as Hlookup.
  cbn in Hlookup. unfold Sample.connectedOnce. cbn.
  apply (f_equal (fmap Connection.lastConnected)) in Hlookup.
  exact Hlookup.
Defined.

Lemma offline_guarded_disconnect (now id : string)
    (cs : list Connection.t) :
  Store.offline
    <$> ((λ c, if decide (Connection.id c = id)
               then Connection.spread c
                      (Connection.mkPartial None None None None None None
                         None (Some false)
                         (Some (Connection.lastConnected c)))
               else c) <$> cs)
  = Store.offline <$> cs.
Proof.
  rewrite <- list_fmap_compose. apply list_fmap_ext. intros i c _. cbn.
  by destruct (decide _).
Qed.

(** X10. The persisted data depends on nothing but the connection list,
    the sidebar width and the theme: opening, editing and closing tabs,
    choosing the active connection or tab, loading tables and
    disconnecting a connection all leave [partialize] as it was. *)
Theorem partialize_unchanged_by (a : Store.Action)
    (s : Store.ConnectionStore) :
  Store.leavesPersisted a = true →
  Store.partialize (Store.step a s) = Store.partialize s.
Proof.
  destruct a as [c|id u|id|id|now id b|newTabId cid|id u|id|id|ts|w|th];
    cbn -[Store.decimal]; try discriminate; try reflexivity.
  destruct b; [discriminate |]. intros _.
  unfold Store.partialize. cbn. by rewrite offline_guarded_disconnect.
Qed.

Lemma partialize_unchanged_by_witness :
  Store.partialize
    (Store.step (Store.SetConnectionStatus "2025-01-02T00:00:00.000Z" "c1"
                                           false) Sample.connectedOnce)
  = Store.partialize Sample.connectedOnce.
Proof.
  apply (partialize_unchanged_by
           (Store.SetConnectionStatus "2025-01-02T00:00:00.000Z" "c1" false)
           Sample.connectedOnce).
  reflexivity.
Defined.

(** ** Composing updates *)

Lemma spread_merge (c : Connection.t) (u1 u2 : Connection.partial) :
  Connection.spread (Connection.spread c u1) u2
  = Connection.spread c (Connection.merge u1 u2).
Proof.
  destruct u1 as [i1 n1 t1 h1 p1 d1 un1 ic1 lc1],
           u2 as [i2 n2 t2 h2 p2 d2 un2 ic2 lc2].
  unfold Connection.spread, Connection.merge. cbn.
  f_equal;
    repeat match goal with
           | |- context [match ?o with Some _ => _ | None => _ end] =>
               destruct o
           end; reflexivity.
Qed.

(** X11. Two updates of the same connection in a row are one update
    with the merged properties, the later ones winning, as long as the
    first does not overwrite the id; in particular an update applied
    twice is the update applied once. *)
Theorem updateConnection_twice (s : Store.ConnectionStore) (id : string)
    (u1 u2 : Connection.partial) :
  Connection.id' u1 = None →
  Store.updateConnection id u2 (Store.updateConnection id u1 s)
  = Store.updateConnection id (Connection.merge u1 u2) s
  ∧ Store.updateConnection id u1 (Store.updateConnection id u1 s)
    = Store.updateConnection id u1 s.
Proof.
  intros Hid.
  assert (Hcompose : ∀ u,
    Store.updateConnection id u (Store.updateConnection id u1 s)
    = Store.updateConnection id (Connection.merge u1 u) s).
  { intros u. unfold Store.updateConnection, Store.set_connections. cbn.
    f_equal. rewrite <- list_fmap_compose. apply list_fmap_ext.
    intros i c _. cbn. destruct (decide (Connection.id c = id)) as [He|Hne].
    - rewrite decide_True; [apply spread_merge |].
      unfold Connection.spread. cbn. by rewrite Hid.
    - by rewrite decide_False. }
  split; [apply Hcompose |]. rewrite Hcompose. f_equal.
  destruct u1 as [i1 n1 t1 h1 p1 d1 un1 ic1 lc1].
  unfold Connection.merge. cbn.
  f_equal; by repeat match goal with
                     | |- context [match ?o with
                                   | Some _ => _ | None => _ end] =>
                         destruct o
                     end.
Qed.

Lemma updateConnection_twice_witness :
  Store.updateConnection "c1"
    (Connection.mkPartial None None None (Some "db.internal") None None None
                          None None)
    (Store.updateConnection "c1"
       (Connection.mkPartial None (Some "Renamed") None None None None None
                             None None) Sample.twoConnections)
  = Store.updateConnection "c1"
      (Connection.mkPartial None (Some "Renamed") None (Some "db.internal")
                            None None None None None) Sample.twoConnections.
Proof.
  exact (proj1 (updateConnection_twice Sample.twoConnections "c1"
    (Connection.mkPartial None (Some "Renamed") None None None None None
                          None None)
    (Connection.mkPartial None None None (Some "db.internal") None None None
                          None None) eq_refl)).
Defined.

(** X12. Removing connections does not depend on the order, and removing
    the same connection twice is removing it once. *)
Theorem removeConnection_commutes (s : Store.ConnectionStore)
    (a b : string) :
  Store.removeConnection a (Store.removeConnection b s)
  = Store.removeConnection b (Store.removeConnection a s)
  ∧ Store.removeConnection a (Store.removeConnection a s)
    = Store.removeConnection a s.
Proof.
  unfold Store.removeConnection, Store.set_queryTabs,
    Store.set_activeConnectionId, Store.set_connections. cbn. split.
  - f_equal.
    + apply filter_comm.
    + destruct (Store.activeConnectionId s) as [x|]; [| reflexivity].
      destruct (decide (Some x = Some b)) as [Hb|Hb],
               (decide (Some x = Some a)) as [Ha|Ha];
        rewrite ?decide_True, ?decide_False by done; try reflexivity;
        destruct (decide _); try done.
    + apply filter_comm.
  - f_equal.
    + apply filter_idemp.
    + destruct (decide (Store.activeConnectionId s = Some a)) as [Ha|Ha];
        [reflexivity | by rewrite decide_False].
    + apply filter_idemp.
Qed.

(** * Further properties of the connection dialog *)

Ltac dialog_simpl :=
  unfold Dialog.closeDialog, Dialog.saveFailed, Dialog.messageOf,
    Dialog.set_saving, Dialog.set_testResult, Dialog.set_formData,
    Dialog.set_open, Dialog.set_testing;
  cbn.

(** X13. When creating a connection fails, nothing is added to the
    store, the dialog stays as open as it was with the form as typed, the
    banner shows the error's message (or "Failed to save connection" when
    the rejection is not an [Error]), and [saving] is reset. *)
Theorem handleSave_create_rejected {B : Type} {backend : Api.Backend B}
    (parseInt10 : string → number) (w : Dialog.World B) (e : Api.Thrown)
    (b1 : B) :
  Dialog.editConnection (Dialog.dialog w) = None →
  Api.createConnection
    (Dialog.createParams parseInt10 (Dialog.formData (Dialog.dialog w)))
    (Dialog.backend w) = (Api.Rejected e, b1) →
  Dialog.handleSave parseInt10 w
  = Dialog.mkWorld (Dialog.store w)
      (Dialog.mkState None (Dialog.open (Dialog.dialog w))
         (Dialog.formData (Dialog.dialog w))
         (Dialog.testing (Dialog.dialog w))
         (Some (Dialog.mkOutcome false
                  (match e with
                   | Api.ErrorInstance m => m
                   | Api.Structured _ => "Failed to save connection"
                   end)))
         false)
      b1.
Proof.
  intros Hnew Hcall. unfold Dialog.handleSave. rewrite Hnew, Hcall.
  dialog_simpl. rewrite Hnew. by destruct e.
Qed.

(** X14. When creating a connection succeeds, the store gains exactly
    one connection, at the end of the list, under the id the backend
    returned, offline and without a time stamp; the dialog is closed, the
    form is back to its defaults (the typed password is gone), the banner
    is cleared and [saving] is reset. *)
Theorem handleSave_create_resolved {B : Type} {backend : Api.Backend B}
    (parseInt10 : string → number) (w : Dialog.World B)
    (connectionId : string) (b1 : B) :
  let f := Dialog.formData (Dialog.dialog w) in
  Dialog.editConnection (Dialog.dialog w) = None →
  Api.createConnection (Dialog.createParams parseInt10 f) (Dialog.backend w)
  = (Api.Resolved connectionId, b1) →
  Dialog.handleSave parseInt10 w
  = Dialog.mkWorld
      (Store.addConnection
         (Connection.mk connectionId (FormData.name f) (FormData.type f)
            (FormData.host f) (parseInt10 (FormData.port f))
            (FormData.database f) (FormData.username f) false None)
         (Dialog.store w))
      (Dialog.mkState None false Dialog.defaultFormData
         (Dialog.testing (Dialog.dialog w)) None false)
      b1.
Proof.
  intros f Hnew Hcall. unfold Dialog.handleSave. fold f.
  rewrite Hnew, Hcall. dialog_simpl. by rewrite Hnew.
Qed.

(** X15. Saving an edit with the password left empty sends nothing to
    the backend: the edit is applied to the store, the dialog is closed
    and the form reset. *)
Theorem handleSave_edit_without_password {B : Type}
    {backend : Api.Backend B} (parseInt10 : string → number)
    (w : Dialog.World (B * list Api.AnyCommand)) (c : Connection.t) :
  let f := Dialog.formData (Dialog.dialog w) in
  Dialog.editConnection (Dialog.dialog w) = Some c →
  FormData.password f = "" →
  let w' := Dialog.handleSave parseInt10 w in
  Dialog.backend w' = Dialog.backend w
  ∧ snd (Dialog.backend w') = snd (Dialog.backend w)
  ∧ Dialog.store w'
    = Store.updateConnection (Connection.id c)
        (Connection.mkPartial None (Some (FormData.name f))
           (Some (FormData.type f)) (Some (FormData.host f))
           (Some (parseInt10 (FormData.port f)))
           (Some (FormData.database f)) (Some (FormData.username f))
           None None)
        (Dialog.store w)
  ∧ Dialog.dialog w'
    = Dialog.mkState (Some c) false Dialog.defaultFormData
        (Dialog.testing (Dialog.dialog w)) None false.
Proof.
  intros f Hedit Hpw w'. subst w'. unfold Dialog.handleSave. fold f.
  rewrite Hedit, decide_True by done. dialog_simpl. rewrite Hedit.
  split_and!; reflexivity.
Qed.

(** X16. When the password call of an edit fails, the edit of the store
    is not taken back: the store holds the edited fields, while the
    dialog stays as open as it was and reports the failure. *)
Theorem handleSave_edit_rejected {B : Type} {backend : Api.Backend B}
    (parseInt10 : string → number) (w : Dialog.World B) (c : Connection.t)
    (e : Api.Thrown) (b1 : B) :
  let f := Dialog.formData (Dialog.dialog w) in
  Dialog.editConnection (Dialog.dialog w) = Some c →
  FormData.password f ≠ "" →
  Api.createConnection (Dialog.createParams parseInt10 f) (Dialog.backend w)
  = (Api.Rejected e, b1) →
  Dialog.handleSave parseInt10 w
  = Dialog.mkWorld
      (Store.updateConnection (Connection.id c)
         (Connection.mkPartial None (Some (FormData.name f))
            (Some (FormData.type f)) (Some (FormData.host f))
            (Some (parseInt10 (FormData.port f)))
            (Some (FormData.database f)) (Some (FormData.username f))
            None None)
         (Dialog.store w))
      (Dialog.mkState (Some c) (Dialog.open (Dialog.dialog w)) f
         (Dialog.testing (Dialog.dialog w))
         (Some (Dialog.mkOutcome false
                  (match e with
                   | Api.ErrorInstance m => m
                   | Api.Structured _ => "Failed to save connection"
                   end)))
         false)
      b1.
Proof.
  intros f Hedit Hpw Hcall. unfold Dialog.handleSave. fold f.
  rewrite Hedit, decide_False, Hcall by done. dialog_simpl.
  rewrite Hedit. by destruct e.
Qed.

(** X17. Opening the dialog on a stored connection and saving it
    untouched leaves the store as it was and sends nothing, provided the
    port text of the form parses back to the connection's port. *)
Theorem handleSave_edit_untouched {B : Type} {backend : Api.Backend B}
    (parseInt10 : string → number) (w : Dialog.World B) (c : Connection.t)
    (portText : string) :
  Dialog.editConnection (Dialog.dialog w) = Some c →
  Dialog.formData (Dialog.dialog w)
  = Dialog.initialFormData (Some c) portText →
  parseInt10 portText = Connection.port c →
  Forall (λ c0, Connection.id c0 = Connection.id c → c0 = c)
         (Store.connections (Dialog.store w)) →
  Dialog.store (Dialog.handleSave parseInt10 w) = Dialog.store w
  ∧ Dialog.backend (Dialog.handleSave parseInt10 w) = Dialog.backend w.
Proof.
  intros Hedit Hform Hport Hstored. unfold Dialog.handleSave.
  rewrite Hedit, Hform. cbn. split; [| reflexivity].
  unfold Store.updateConnection, Store.set_connections. cbn.
  rewrite Hport.
  replace (_ <$> Store.connections (Dialog.store w))
    with (Store.connections (Dialog.store w)); [apply store_eta |].
  symmetry. rewrite <- (list_fmap_id (Store.connections (Dialog.store w)))
    at 2.
  apply Forall_fmap_ext_1. eapply Forall_impl; [exact Hstored |].
  intros c0 Hc0. cbn. destruct (decide (Connection.id c0 = Connection.id c))
    as [He|Hne]; [| reflexivity].
  rewrite (Hc0 He). by destruct c.
Qed.

Lemma handleSave_edit_untouched_witness :
  Dialog.store
    (Dialog.handleSave Builtins.parseInt10
       (Dialog.mkWorld (Store.addConnection Sample.storedLocal Store.initial)
          (Dialog.mkState (Some Sample.storedLocal) true
             (Dialog.initialFormData (Some Sample.storedLocal) "5432")
             false None false)
          Sample.coreWithLocal))
  = Store.addConnection Sample.storedLocal Store.initial.
Proof.
  refine (proj1 (handleSave_edit_untouched Builtins.parseInt10
    (Dialog.mkWorld (Store.addConnection Sample.storedLocal Store.initial)
       (Dialog.mkState (Some Sample.storedLocal) true
          (Dialog.initialFormData (Some Sample.storedLocal) "5432")
          false None false)
       Sample.coreWithLocal)
    Sample.storedLocal "5432" eq_refl eq_refl _ _)).
  - vm_compute. reflexivity.
  - constructor; [intros _; reflexivity | constructor].
Defined.

(** X18. A connection test sends the backend exactly one command,
    [test_connection], with the engine type, host, database, user name
    and password of the form and the parsed port; it creates nothing. *)
Theorem handleTestConnection_sends_one_test {B : Type}
    {backend : Api.Backend B} (parseInt10 : string → number)
    (w : Dialog.World (B * list Api.AnyCommand)) :
  let f := Dialog.formData (Dialog.dialog w) in
  snd (Dialog.backend (Dialog.handleTestConnection parseInt10 w))
  = snd (Dialog.backend w) ++
      [Api.sent
         (Api.test_connection
            (TestConnectionParams.mk (FormData.type f) (FormData.host f)
               (parseInt10 (FormData.port f)) (FormData.database f)
               (FormData.username f) (FormData.password f)))].
Proof.
  intros f. unfold Dialog.handleTestConnection. fold f.
  cbv [Api.testConnection Api.invoke Api.recording].
  by destruct (backend _ _ _) as [[?|?] ?].
Qed.

Lemma handleSave_create_rejected_witness :
  Dialog.store
    (Dialog.handleSave
       (H := λ R _ b, (Api.Rejected (Api.ErrorInstance "locked"), b))
       Builtins.parseInt10
       (Dialog.mkWorld Store.initial
          (Dialog.mkState None true Sample.editForm false None false) ()))
  = Store.initial.
Proof.
  exact (f_equal Dialog.store
    (handleSave_create_rejected
       (backend := λ R _ b, (Api.Rejected (Api.ErrorInstance "locked"), b))
       Builtins.parseInt10
       (Dialog.mkWorld Store.initial
          (Dialog.mkState None true Sample.editForm false None false) ())
       (Api.ErrorInstance "locked") () eq_refl eq_refl)).
Defined.

Lemma handleSave_create_resolved_witness :
  Connection.id
    <$> Store.connections
          (Dialog.store
             (Dialog.handleSave Builtins.parseInt10
                (Dialog.mkWorld Store.initial
                   (Dialog.mkState None true Sample.editForm false None
                                   false)
                   Sample.emptyCore)))
  = ["conn-0"].
Proof.
  erewrite (handleSave_create_resolved (backend := Core.backend)
              Builtins.parseInt10 _ "conn-0");
    [reflexivity | reflexivity | vm_compute; reflexivity].
Defined.

Lemma handleSave_edit_without_password_witness :
  snd (Dialog.backend
         (Dialog.handleSave Builtins.parseInt10
            (Dialog.mkWorld
               (Store.addConnection Sample.storedLocal Store.initial)
               (Dialog.mkState (Some Sample.storedLocal) true
                  (Dialog.initialFormData (Some Sample.storedLocal) "5432")
                  false None false)
               (Sample.coreWithLocal, []))))
  = [].
Proof.
  exact (proj1 (proj2
    (handleSave_edit_without_password Builtins.parseInt10
       (Dialog.mkWorld
          (Store.addConnection Sample.storedLocal Store.initial)
          (Dialog.mkState (Some Sample.storedLocal) true
             (Dialog.initialFormData (Some Sample.storedLocal) "5432")
             false None false)
          (Sample.coreWithLocal, []))
       Sample.storedLocal eq_refl eq_refl))).
Defined.

Lemma handleSave_edit_rejected_witness :
  Connection.host
    <$> Store.connections
          (Dialog.store
             (Dialog.handleSave
                (H :=
                   λ R _ b, (Api.Rejected (Api.ErrorInstance "locked"), b))
                Builtins.parseInt10
                (Dialog.mkWorld
                   (Store.addConnection Sample.storedLocal Store.initial)
                   (Dialog.mkState (Some Sample.storedLocal) true
                      Sample.editForm false None false) ())))
  = ["db.internal"].
Proof.
  rewrite (handleSave_edit_rejected
             (backend :=
                λ R _ b, (Api.Rejected (Api.ErrorInstance "locked"), b))
             Builtins.parseInt10
             (Dialog.mkWorld
                (Store.addConnection Sample.storedLocal Store.initial)
                (Dialog.mkState (Some Sample.storedLocal) true
                   Sample.editForm false None false) ())
             Sample.storedLocal (Api.ErrorInstance "locked") () eq_refl
             ltac:(discriminate) eq_refl).
  reflexivity.
Defined.

(** * Further properties of the query editor *)

(** X19. The run button does nothing at all (no command, no change of
    the store or of the editor) when no tab is active, when no connection
    is active, while a query is running, or when the statement is
    blank. *)
Theorem handleRunQuery_guards {B : Type} {backend : Api.Backend B}
    (trim : string → string) (w : Editor.World B) :
  Editor.activeTab (Editor.store w) = None
  ∨ Editor.activeConnection (Editor.store w) = None
  ∨ Editor.isRunning (Editor.editor w) = true
  ∨ (∃ tab, Editor.activeTab (Editor.store w) = Some tab
            ∧ trim (Dialog.orElse (Editor.editorValue (Editor.editor w))
                                  (QueryTab.sql tab)) = "") →
  Editor.handleRunQuery trim w = w.
Proof.
  unfold Editor.handleRunQuery.
  intros [Htab|[Hconn|[Hrun|(tab & Htab & Hblank)]]].
  - by rewrite Htab.
  - rewrite Hconn. by destruct (Editor.activeTab (Editor.store w)).
  - rewrite Hrun.
    by destruct (Editor.activeTab (Editor.store w)),
                (Editor.activeConnection (Editor.store w)).
  - rewrite Htab.
    destruct (Editor.activeConnection (Editor.store w)); [| done].
    destruct (Editor.isRunning (Editor.editor w)); [done |].
    by rewrite decide_True.
Qed.

Lemma handleRunQuery_guards_witness :
  Editor.handleRunQuery Builtins.trim
    (Editor.mkWorld Sample.editorStore (Editor.mkState false (Some "   "))
                    (Sample.coreWithLocal, []))
  = Editor.mkWorld Sample.editorStore (Editor.mkState false (Some "   "))
                   (Sample.coreWithLocal, []).
Proof.
  apply (handleRunQuery_guards Builtins.trim
           (Editor.mkWorld Sample.editorStore
              (Editor.mkState false (Some "   "))
              (Sample.coreWithLocal, []))).
  do 3 right.
  exists (QueryTab.mk "t1" "conn-0" "Query 1" "SELECT * FROM users" None
                      false).
  split; reflexivity.
Defined.

Lemma updateQueryTab_twice_lookup (s : Store.ConnectionStore) (id : string)
    (u1 u2 : QueryTab.partial) (i : nat) (t : QueryTab.t) :
  QueryTab.id' u1 = None →
  Store.queryTabs s !! i = Some t →
  Store.queryTabs (Store.updateQueryTab id u2 (Store.updateQueryTab id u1 s))
    !! i
  = Some (if decide (QueryTab.id t = id)
          then QueryTab.spread (QueryTab.spread t u1) u2 else t).
Proof.
  intros Hid Hi. cbn. rewrite !list_lookup_fmap, Hi. cbn.
  destruct (decide (QueryTab.id t = id)) as [He|Hne].
  - rewrite decide_True; [done |]. unfold QueryTab.spread. cbn.
    by rewrite Hid.
  - by rewrite decide_False.
Qed.

(** X20. When the run button does run, every tab with the active tab's
    id ends up not running and holding a result: the backend's result
    when the call resolved, the empty result (no columns, no rows, zero
    counts) when it was rejected, whatever the error; all other tabs and
    all other fields of the store are as before, and the editor is no
    longer running. *)
Theorem handleRunQuery_outcome {B : Type} {backend : Api.Backend B}
    (trim : string → string) (w : Editor.World B) (tab : QueryTab.t)
    (conn : Connection.t) (settled : Api.Settled QueryResult.t) (b1 : B) :
  let sql :=
    Dialog.orElse (Editor.editorValue (Editor.editor w)) (QueryTab.sql tab) in
  let shown :=
    match settled with
    | Api.Resolved result => result
    | Api.Rejected _ => QueryResult.mk [] [] (Int 0) (Int 0)
    end in
  Editor.activeTab (Editor.store w) = Some tab →
  Editor.activeConnection (Editor.store w) = Some conn →
  Editor.isRunning (Editor.editor w) = false →
  trim sql ≠ "" →
  Api.executeQuery
    (ExecuteQueryParams.mk (Connection.id conn) sql (Some (Int 100))
                           (Some (Int 0)))
    (Editor.backend w) = (settled, b1) →
  let w' := Editor.handleRunQuery trim w in
  (∀ i t, Store.queryTabs (Editor.store w) !! i = Some t →
          Store.queryTabs (Editor.store w') !! i
          = Some (if decide (QueryTab.id t = QueryTab.id tab)
                  then QueryTab.mk (QueryTab.id t) (QueryTab.connectionId t)
                         (QueryTab.title t) (QueryTab.sql t) (Some shown)
                         false
                  else t))
  ∧ Store.connections (Editor.store w') = Store.connections (Editor.store w)
  ∧ Store.activeTabId (Editor.store w') = Store.activeTabId (Editor.store w)
  ∧ Store.activeConnectionId (Editor.store w')
    = Store.activeConnectionId (Editor.store w)
  ∧ Store.tables (Editor.store w') = Store.tables (Editor.store w)
  ∧ Store.sidebarWidth (Editor.store w')
    = Store.sidebarWidth (Editor.store w)
  ∧ Store.theme (Editor.store w') = Store.theme (Editor.store w)
  ∧ length (Store.queryTabs (Editor.store w'))
    = length (Store.queryTabs (Editor.store w))
  ∧ Store.partialize (Editor.store w') = Store.partialize (Editor.store w)
  ∧ Editor.editor w'
    = Editor.mkState false (Editor.editorValue (Editor.editor w))
  ∧ Editor.backend w' = b1.
Proof.
  intros sql shown Htab Hconn Hrun Hsql Hcall w'.
  assert (Hw' : w'
    = Editor.mkWorld
        (Store.updateQueryTab (QueryTab.id tab)
           (Editor.running false (Some (Some shown)))
           (Store.updateQueryTab (QueryTab.id tab) (Editor.running true None)
                                 (Editor.store w)))
        (Editor.mkState false (Editor.editorValue (Editor.editor w))) b1).
  { subst w'. unfold Editor.handleRunQuery.
    rewrite Htab, Hconn, Hrun. fold sql. rewrite decide_False by done.
    unfold Editor.runRequest. rewrite Hcall. subst shown.
    by destruct settled. }
  rewrite Hw'. split_and!; try reflexivity;
    [| cbn; by rewrite !length_fmap].
  intros i t Hi. cbn [Editor.store].
  rewrite (updateQueryTab_twice_lookup _ _ (Editor.running true None) _ i t
             eq_refl Hi).
  by destruct (decide _).
Qed.

Lemma handleRunQuery_outcome_witness :
  Store.activeTabId
    (Editor.store (Editor.handleRunQuery Builtins.trim Sample.editorWorld))
  = Store.activeTabId Sample.editorStore.
Proof.
  refine (proj1 (proj2 (proj2
    (handleRunQuery_outcome Builtins.trim Sample.editorWorld
       (QueryTab.mk "t1" "conn-0" "Query 1" "SELECT * FROM users" None false)
       Sample.storedLocal
       (fst (Api.executeQuery
               (ExecuteQueryParams.mk "conn-0" "SELECT * FROM users"
                                      (Some (Int 100)) (Some (Int 0)))
               (Editor.backend Sample.editorWorld)))
       (snd (Api.executeQuery
               (ExecuteQueryParams.mk "conn-0" "SELECT * FROM users"
                                      (Some (Int 100)) (Some (Int 0)))
               (Editor.backend Sample.editorWorld)))
       eq_refl eq_refl eq_refl _ _)))).
  - vm_compute. discriminate.
  - cbn [Sample.editorWorld Editor.backend Editor.editor Editor.editorValue
         Dialog.orElse QueryTab.sql Connection.id Sample.storedLocal].
    by destruct (Api.executeQuery _ _).
Defined.

Lemma activeTab_updateQueryTab (s : Store.ConnectionStore) (tabId : string)
    (u : QueryTab.partial) :
  QueryTab.id' u = None →
  Editor.activeTab (Store.updateQueryTab tabId u s)
  = (λ t, if decide (QueryTab.id t = tabId) then QueryTab.spread t u else t)
      <$> Editor.activeTab s.
Proof.
  intros Hid. unfold Editor.activeTab. cbn.
  assert (Hshift : ∀ o : option (nat * QueryTab.t),
            snd <$> (prod_map S id <$> o) = snd <$> o)
    by (by intros [[]|]).
  induction (Store.queryTabs s) as [|t ts IH]; [reflexivity |].
  cbn. assert (Hsame :
    QueryTab.id (if decide (QueryTab.id t = tabId)
                 then QueryTab.spread t u else t) = QueryTab.id t).
  { destruct (decide _); [| done]. unfold QueryTab.spread. cbn.
    by rewrite Hid. }
  rewrite Hsame.
  destruct (decide (Store.activeTabId s = Some (QueryTab.id t)));
    [reflexivity |].
  rewrite !Hshift, IH. by destruct (list_find _ ts) as [[]|].
Qed.

(** X21. Typing in the editor stores the text in the active tab and in
    no other tab with a different id; without an active tab, or when the
    editor reports no value, nothing changes. *)
Theorem handleSqlChange_sets_active_sql (s : Store.ConnectionStore)
    (tab : QueryTab.t) (value : string) :
  Editor.activeTab s = Some tab →
  let s' := Editor.handleSqlChange (Some value) s in
  Editor.activeTab s'
  = Some (QueryTab.mk (QueryTab.id tab) (QueryTab.connectionId tab)
            (QueryTab.title tab) value (QueryTab.results tab)
            (QueryTab.isRunning tab))
  ∧ (∀ i t, Store.queryTabs s !! i = Some t →
            QueryTab.id t ≠ QueryTab.id tab →
            Store.queryTabs s' !! i = Some t)
  ∧ Editor.handleSqlChange None s = s.
Proof.
  intros Htab s'. subst s'. unfold Editor.handleSqlChange. rewrite Htab.
  split_and!; [| | reflexivity].
  - rewrite activeTab_updateQueryTab by done. rewrite Htab. cbn.
    by rewrite decide_True.
  - intros i t Hi Hne. by apply updateQueryTab_lookup_other.
Qed.

Lemma handleSqlChange_sets_active_sql_witness :
  QueryTab.sql
    <$> Editor.activeTab
          (Editor.handleSqlChange (Some "SELECT 1") Sample.editorStore)
  = Some "SELECT 1".
Proof.
  rewrite (proj1 (handleSqlChange_sets_active_sql Sample.editorStore
    (QueryTab.mk "t1" "conn-0" "Query 1" "SELECT * FROM users" None false)
    "SELECT 1" eq_refl)).
  reflexivity.
Defined.

Lemma handleSqlChange_without_tab (s : Store.ConnectionStore)
    (value : option string) :
  Editor.activeTab s = None → Editor.handleSqlChange value s = s.
Proof. intros Htab. unfold Editor.handleSqlChange. by rewrite Htab. Qed.

(** X22. The new-tab button opens a tab of the active connection: it is
    appended to the tabs shown in the tab bar, it is numbered one more
    than the tabs shown there, and (its id being unused) it is the active
    tab. *)
Theorem handleNewTab_opens_numbered_tab (s : Store.ConnectionStore)
    (newTabId connectionId : string) :
  Store.activeConnectionId s = Some connectionId →
  connectionId ≠ "" →
  newTabId ∉ Store.tabIds s →
  let s' := Editor.handleNewTab newTabId s in
  let tab :=
    QueryTab.mk newTabId connectionId
      ("Query " +:+ Store.decimal (length (Editor.connectionTabs s) + 1))
      "" None false in
  Editor.connectionTabs s' = Editor.connectionTabs s ++ [tab]
  ∧ Editor.activeTab s' = Some tab
  ∧ Store.queryTabs s' = Store.queryTabs s ++ [tab].
Proof.
  intros Hactive Hne Hfresh%not_in_tabIds s' tab.
  assert (Hcount :
    filter (λ t, QueryTab.connectionId t = connectionId) (Store.queryTabs s)
    = Editor.connectionTabs s).
  { unfold Editor.connectionTabs. rewrite Hactive.
    apply list_filter_iff. intros t. split; congruence. }
  assert (Htabs : Store.queryTabs s' = Store.queryTabs s ++ [tab]).
  { subst s' tab. unfold Editor.handleNewTab.
    rewrite Hactive, decide_False by done. cbn -[Store.decimal].
    by rewrite Hcount. }
  assert (Hact : Store.activeTabId s' = Some newTabId
                 ∧ Store.activeConnectionId s' = Some connectionId).
  { subst s'. unfold Editor.handleNewTab.
    rewrite Hactive, decide_False by done. by split. }
  destruct Hact as [Hact Hconn]. split_and!; [| | exact Htabs].
  - unfold Editor.connectionTabs. rewrite Htabs, Hconn, Hactive.
    rewrite filter_app, filter_cons, decide_True by done.
    by rewrite filter_nil.
  - unfold Editor.activeTab. rewrite Htabs, Hact.
    assert (Hfind :
      list_find (λ t, Some newTabId = Some (QueryTab.id t))
                (Store.queryTabs s ++ [tab])
      = Some (length (Store.queryTabs s), tab)).
    { apply list_find_Some. split_and!.
      - by rewrite lookup_app_r, Nat.sub_diag by lia.
      - reflexivity.
      - intros j t Hj Hlt [= He].
        rewrite lookup_app_l in Hj by done.
        rewrite Forall_forall in Hfresh. apply (Hfresh t); [| done].
        apply list_elem_of_lookup. by exists j. }
    by rewrite Hfind.
Qed.

Lemma handleNewTab_opens_numbered_tab_witness :
  QueryTab.title
    <$> Editor.activeTab (Editor.handleNewTab "t4" Sample.twoConnections)
  = Some "Query 3".
Proof.
  assert (Hfresh : "t4" ∉ Store.tabIds Sample.twoConnections).
  { vm_compute. intros Hin. repeat (apply elem_of_cons in Hin as [Hin|Hin];
      [discriminate Hin |]). by apply elem_of_nil in Hin. }
  rewrite (proj1 (proj2
    (handleNewTab_opens_numbered_tab Sample.twoConnections "t4" "c1"
       eq_refl ltac:(discriminate) Hfresh))).
  reflexivity.
Defined.

(** Without an active connection, or with the empty string as its id,
    the new-tab button does nothing. *)
Lemma handleNewTab_without_connection (s : Store.ConnectionStore)
    (newTabId : string) :
  Store.activeConnectionId s = None ∨ Store.activeConnectionId s = Some "" →
  Editor.handleNewTab newTabId s = s.
Proof.
  unfold Editor.handleNewTab. by intros [->| ->].
Qed.

(** X23. Closing the active tab activates the last remaining tab of the
    whole store, not of the tab bar: when that tab belongs to another
    connection than the active one, the active tab is a tab that the tab
    bar does not show. *)
Theorem handleCloseTab_may_leave_the_tab_bar (s : Store.ConnectionStore)
    (tabId : string) (t : QueryTab.t) :
  Store.activeTabId s = Some tabId →
  last (filter (λ t0, QueryTab.id t0 ≠ tabId) (Store.queryTabs s))
  = Some t →
  Store.activeConnectionId s ≠ Some (QueryTab.connectionId t) →
  let s' := Editor.handleCloseTab tabId s in
  Store.activeTabId s' = Some (QueryTab.id t)
  ∧ t ∈ Store.queryTabs s'
  ∧ t ∉ Editor.connectionTabs s'.
Proof.
  intros Hactive Hlast Hother s'. subst s'.
  unfold Editor.handleCloseTab, Store.removeQueryTab. cbn.
  rewrite bool_decide_eq_true_2, Hlast by done. split_and!.
  - reflexivity.
  - apply last_Some in Hlast as [l' ->]. apply elem_of_app. right.
    apply list_elem_of_here.
  - unfold Editor.connectionTabs. cbn. intros Hin.
    apply list_elem_of_filter in Hin as [Hconn _]. by apply Hother.
Qed.

Lemma handleCloseTab_may_leave_the_tab_bar_witness :
  Store.activeTabId (Editor.handleCloseTab "t3" Sample.twoConnections)
  = Some "t2".
Proof.
  refine (proj1
    (handleCloseTab_may_leave_the_tab_bar Sample.twoConnections "t3"
       (QueryTab.mk "t2" "c2" "Query 1" "" None false) eq_refl eq_refl _)).
  discriminate.
Defined.

(** * Properties of the sidebar *)

(** X24. The theme button turns dark into light and every other theme
    into dark. So it never selects the system theme, and pressing it
    twice gives the theme back exactly when the theme was not the system
    theme. Nothing else in the store changes. *)
Theorem toggleTheme_leaves_system (s : Store.ConnectionStore) :
  Store.theme (Sidebar.toggleTheme s)
  = match Store.theme s with
    | dark => light
    | light => dark
    | system => dark
    end
  ∧ Store.theme (Sidebar.toggleTheme s) ≠ system
  ∧ Store.theme (Sidebar.toggleTheme s) ≠ Store.theme s
  ∧ (Store.theme (Sidebar.toggleTheme (Sidebar.toggleTheme s))
     = Store.theme s ↔ Store.theme s ≠ system)
  ∧ Sidebar.toggleTheme s
    = Store.mk (Store.connections s) (Store.activeConnectionId s)
        (Store.queryTabs s) (Store.activeTabId s) (Store.tables s)
        (Store.sidebarWidth s) (Store.theme (Sidebar.toggleTheme s)).
Proof.
  unfold Sidebar.toggleTheme. cbn.
  destruct (Store.theme s); split_and!; try done; split; done.
Qed.

(** X25. Toggling a connection in the sidebar twice gives the set of
    expanded connections back, but not the store: whichever way round,
    the connection has become the active one and the table list has been
    emptied. Collapsing alone leaves the store as it is. *)
Theorem toggleConnection_twice (w : Sidebar.World) (connectionId : string) :
  let w2 :=
    Sidebar.toggleConnection connectionId
      (Sidebar.toggleConnection connectionId w) in
  Sidebar.expandedConnections w2 = Sidebar.expandedConnections w
  ∧ Sidebar.store w2
    = Store.setActiveConnection (Some connectionId) (Sidebar.store w)
  ∧ Store.activeConnectionId (Sidebar.store w2) = Some connectionId
  ∧ Store.tables (Sidebar.store w2) = []
  ∧ Sidebar.store (Sidebar.toggleConnection connectionId w)
    = (if decide (connectionId ∈ Sidebar.expandedConnections w)
       then Sidebar.store w
       else Store.setActiveConnection (Some connectionId) (Sidebar.store w)).
Proof.
  intros w2. subst w2. unfold Sidebar.toggleConnection.
  destruct (decide (connectionId ∈ Sidebar.expandedConnections w))
    as [Hin|Hout]; cbn.
  - rewrite decide_False
      by (intros [_ Hn]%elem_of_difference; apply Hn;
          by apply elem_of_singleton).
    cbn.
    split_and!; try reflexivity.
    apply leibniz_equiv. intros x. rewrite elem_of_union,
      elem_of_difference, elem_of_singleton.
    destruct (decide (x = connectionId)) as [->|]; tauto.
  - rewrite decide_True
      by (apply elem_of_union; left; by apply elem_of_singleton).
    cbn.
    split_and!; try reflexivity.
    apply leibniz_equiv. intros x. rewrite elem_of_difference,
      elem_of_union, elem_of_singleton.
    split; [tauto |]. intros Hx. split; [by right |]. by intros ->.
Qed.
